(** * get_subs.py: the subsidiary extractor, embedded and verified

    The program is one Streamlit page: it reads a parent company name, calls a
    remote endpoint through [requests], flattens the returned list of
    subsidiaries with [pandas.json_normalize], drops a fixed list of columns
    and offers the rest as CSV, with a preview of the first rows.

    The embedding follows src/get_subs.py function by function.  The
    libraries it calls are modelled by the behaviour their sources have:
    - requests over http.client: a status line whose code is not a number
      from 100 to 999 fails the connection, a 100 is skipped, and no body
      is read for a status 1xx, 204 or 304; [raise_for_status] raises
      [HTTPError] for a status in 400..599 and nothing else;
      [Response.json] turns the [JSONDecodeError] of [json.loads] into
      [requests.exceptions.JSONDecodeError], a [RequestException]
      (requests 2.27 and later), and lets the other failures of
      [json.loads] through as they are: the [ValueError] for an integer of
      more than 4300 digits (CPython 3.11) and the [RecursionError] for
      nesting beyond the recursion limit;
    - pandas: [json_normalize] without optional arguments takes the
      [_simple_json_normalize] path; [DataFrame] of a list of mappings takes
      the union of the keys in order of first appearance; [to_csv] hands the
      header and then one row per index entry to [csv.writer] with the line
      terminator of the platform (POSIX: a line feed).  The one path left
      out is the frame of a list that holds a list ([DataFrame_of_rows]);
    - csv: the writer and the reader of CPython 3.11 (Modules/_csv.c) with
      QUOTE_MINIMAL and doubled quotes.
    - streamlit: every call is recorded, in order, with its arguments.
    Python strings are carried as their UTF-8 bytes. *)

From Stdlib Require Import List String Ascii Bool ZArith Arith Lia.
Import ListNotations.
Open Scope string_scope.

Set Implicit Arguments.
Set Warnings "-register-all".

(** ** JSON values as Python objects

    [json.loads] gives [None], [bool], [int], [float], [str], [list] and
    [dict]; a dict keeps its keys in insertion order, so it is an association
    list.  A float is kept as mantissa and binary exponent: only its being
    zero or not is ever inspected here. *)

Inductive json : Type :=
| JNull
| JBool (b : bool)
| JInt (z : Z)
| JFloat (m e : Z)
| JStr (s : string)
| JArr (l : list json)
| JObj (d : list (string * json)).

Definition dict (V : Type) := list (string * V).

Definition isinstance_dict (v : json) : bool :=
  match v with JObj _ => true | _ => false end.

Definition isinstance_list (v : json) : bool :=
  match v with JArr _ => true | _ => false end.

(** *** dict operations *)

Fixpoint dict_get {V} (k : string) (d : dict V) : option V :=
  match d with
  | [] => None
  | (k', v) :: d' => if String.eqb k k' then Some v else dict_get k d'
  end.

Definition dict_mem {V} (k : string) (d : dict V) : bool :=
  match dict_get k d with Some _ => true | None => false end.

(** [d[k] = v]: an existing key keeps its position and takes the new value,
    a new key goes last. *)
Fixpoint dict_set {V} (k : string) (v : V) (d : dict V) : dict V :=
  match d with
  | [] => [(k, v)]
  | (k', v') :: d' =>
      if String.eqb k k' then (k', v) :: d' else (k', v') :: dict_set k v d'
  end.

(** [{**a, **b}] *)
Definition dict_merge {V} (a b : dict V) : dict V :=
  fold_left (fun acc kv => dict_set (fst kv) (snd kv) acc) b a.

Definition keys {V} (d : dict V) : list string := map fst d.

(** *** Truth value, membership, subscription, equality *)

Definition str_truthy (s : string) : bool :=
  match s with EmptyString => false | _ => true end.

Definition truthy (v : json) : bool :=
  match v with
  | JNull => false
  | JBool b => b
  | JInt z => negb (Z.eqb z 0)
  | JFloat m _ => negb (Z.eqb m 0)
  | JStr s => str_truthy s
  | JArr l => match l with [] => false | _ => true end
  | JObj d => match d with [] => false | _ => true end
  end.

(** [needle in haystack] on two strings. *)
Fixpoint str_contains (needle hay : string) : bool :=
  if String.prefix needle hay then true
  else match hay with
       | EmptyString => false
       | String _ hay' => str_contains needle hay'
       end.

(** [v == s] for a JSON value and a string. *)
Definition eq_str (v : json) (s : string) : bool :=
  match v with JStr s' => String.eqb s' s | _ => false end.

(** The exceptions that can occur.  [requests.exceptions.RequestException]
    is the base class of everything [requests.get], [raise_for_status] and
    [Response.json] raise. *)
Inductive request_exception : Type :=
| ConnectionError
| Timeout
| TooManyRedirects
| HTTPError (status_code : Z)
| JSONDecodeError
| OtherRequestException.

Inductive exn : Type :=
| RequestException (r : request_exception)
| TypeError
| KeyError (k : string)
| AttributeError
| NotImplementedError
| ValueError
| RecursionError.

(** What a Python expression or call comes to: a value, an exception, or,
    for the one corner of pandas left out (see [DataFrame_of_rows]), no
    answer from this model. *)
Inductive outcome (A : Type) : Type :=
| Return (a : A)
| Raise (e : exn)
| Unmodelled.
Arguments Return {A} a.
Arguments Raise {A} e.
Arguments Unmodelled {A}.

(** ["status" in v] *)
Definition contains (k : string) (v : json) : outcome bool :=
  match v with
  | JObj d => Return (dict_mem k d)
  | JArr l => Return (existsb (fun x => eq_str x k) l)
  | JStr s => Return (str_contains k s)
  | _ => Raise TypeError
  end.

(** [v["status"]] *)
Definition getitem (v : json) (k : string) : outcome json :=
  match v with
  | JObj d => match dict_get k d with
              | Some x => Return x
              | None => Raise (KeyError k)
              end
  | _ => Raise TypeError
  end.

(** [v.get(k, default)] *)
Definition get (v : json) (k : string) (default : json) : outcome json :=
  match v with
  | JObj d => match dict_get k d with
              | Some x => Return x
              | None => Return default
              end
  | _ => Raise AttributeError
  end.

(** ** pandas *)

(** *** json_normalize

    pandas/io/json/_normalize.py.  [separator] is the default [sep="."]. *)

Definition separator : string := ".".

(** [str.removeprefix] *)
Definition removeprefix (p s : string) : string :=
  if String.prefix p s
  then String.substring (String.length p) (String.length s - String.length p) s
  else s.

(** [_normalise_json]: walks nested dicts, storing every value that is not a
    dict under the key path joined by the separator; the separator is not
    put in front of a key while the path so far is empty. *)
Fixpoint _normalise_json (data : json) (key_string : string)
    (normalized_dict : dict json) : dict json :=
  match data with
  | JObj items =>
      (fix loop (items : list (string * json)) (normalized_dict : dict json)
         : dict json :=
         match items with
         | [] => normalized_dict
         | (key, value) :: rest =>
             let new_key := key_string ++ separator ++ key in
             let new_key :=
               if negb (str_truthy key_string)
               then removeprefix separator new_key else new_key in
             loop rest (_normalise_json value new_key normalized_dict)
         end) items normalized_dict
  | _ => dict_set key_string data normalized_dict
  end.

(** [_normalise_json_ordered]: the top-level values that are not dicts come
    first, the flattened nested dicts after them. *)
Definition _normalise_json_ordered (data : dict json) : dict json :=
  let top_dict_ := filter (fun kv => negb (isinstance_dict (snd kv))) data in
  let nested_dict_ :=
    _normalise_json
      (JObj (filter (fun kv => isinstance_dict (snd kv)) data)) "" [] in
  dict_merge top_dict_ nested_dict_.

(** [_simple_json_normalize] on one element of the list: a dict is flattened,
    a list is mapped element by element, anything else gives the empty
    dict.  A row is either a flat dict or a list of rows. *)
Inductive row : Type :=
| RowDict (d : dict json)
| RowList (l : list row).

Fixpoint _simple_json_normalize (ds : json) : row :=
  match ds with
  | JObj d => RowDict (_normalise_json_ordered d)
  | JArr l => RowList (map _simple_json_normalize l)
  | _ => RowDict []
  end.

(** *** DataFrame

    A frame is kept by columns, as pandas keeps it: the length of its
    [RangeIndex] and, per column, the label and the values.  A cell is
    [None] where the record had no such key (pandas stores NaN). *)

Definition cell := option json.

Record DataFrame : Type := {
  index : nat;
  columns : list (string * list cell)
}.

Definition labels (df : DataFrame) : list string := map fst (columns df).

(** [col in df.columns] *)
Definition label_in (col : string) (df : DataFrame) : bool :=
  existsb (String.eqb col) (labels df).

(** [lib.fast_unique_multiple_list_gen(gen, sort=False)]: the keys of all
    records, each kept where it is first seen. *)
Definition fast_unique_multiple_list_gen (gen : list (list string))
  : list string :=
  fold_left
    (fun uniques ks =>
       fold_left
         (fun uniques k =>
            if existsb (String.eqb k) uniques then uniques else (uniques ++ [k])%list)
         ks uniques)
    gen [].

(** [DataFrame(data)] for a list of dicts ([_list_of_dict_to_arrays] and
    [lib.dicts_to_array]). *)
Definition DataFrame_of_dicts (data : list (dict json)) : DataFrame :=
  let pre_cols := fast_unique_multiple_list_gen (map (@keys json) data) in
  {| index := List.length data;
     columns := map (fun col => (col, map (dict_get col) data)) pre_cols |}.

Fixpoint rows_as_dicts (data : list row) : option (list (dict json)) :=
  match data with
  | [] => Some []
  | RowDict d :: rest =>
      match rows_as_dicts rest with
      | Some ds => Some (d :: ds)
      | None => None
      end
  | RowList _ :: _ => None
  end.

(** [DataFrame(data)] for the list [_simple_json_normalize] returns.  When
    every row is a dict this is [DataFrame_of_dicts].  A row that is itself a
    list (an element of the JSON list that is a JSON array) sends pandas down
    its list-of-lists constructor with integer column labels; that path is
    not modelled. *)
Definition DataFrame_of_rows (data : list row) : outcome DataFrame :=
  match rows_as_dicts data with
  | Some ds => Return (DataFrame_of_dicts ds)
  | None => Unmodelled
  end.

(** [pd.json_normalize(data)] *)
Definition json_normalize (data : json) : outcome DataFrame :=
  match data with
  | JArr [] => Return {| index := 0; columns := [] |}
  | JObj d => DataFrame_of_rows [_simple_json_normalize (JObj d)]
  | JArr l => DataFrame_of_rows (map _simple_json_normalize l)
  | _ => Raise NotImplementedError
  end.

(** [df.drop(columns=..., errors=...)] *)
Inductive errors_mode : Type := errors_raise | errors_ignore.

Definition drop (cols : list string) (errors : errors_mode) (df : DataFrame)
  : outcome DataFrame :=
  let kept :=
    filter (fun c => negb (existsb (String.eqb (fst c)) cols)) (columns df) in
  match errors with
  | errors_ignore => Return {| index := index df; columns := kept |}
  | errors_raise =>
      match find (fun c => negb (label_in c df)) cols with
      | Some c => Raise (KeyError c)
      | None => Return {| index := index df; columns := kept |}
      end
  end.

(** [df.head()]: the first five rows. *)
Definition head (df : DataFrame) : DataFrame :=
  {| index := Nat.min 5 (index df);
     columns := map (fun c => (fst c, firstn 5 (snd c))) (columns df) |}.

(** ** csv.writer

    Modules/_csv.c with the dialect pandas passes: comma as delimiter, the
    double quote as quote character, doubled inside a field, QUOTE_MINIMAL,
    no escape character, and
    [os.linesep] as line terminator (a line feed).  A field is quoted when it
    holds the delimiter, the quote character or a character of the line
    terminator. *)

Definition delimiter : ascii := ","%char.
Definition quotechar : ascii := "034"%char.
Definition LF : ascii := "010"%char.
Definition CR : ascii := "013"%char.
Definition lineterminator : string := String LF EmptyString.

Fixpoint str_has (c : ascii) (s : string) : bool :=
  match s with
  | EmptyString => false
  | String c' s' => Ascii.eqb c c' || str_has c s'
  end.

Definition needs_quoting (c : ascii) : bool :=
  Ascii.eqb c delimiter || Ascii.eqb c quotechar || str_has c lineterminator.

Fixpoint any_char (p : ascii -> bool) (s : string) : bool :=
  match s with
  | EmptyString => false
  | String c s' => p c || any_char p s'
  end.

(** The field's characters, each quote character doubled. *)
Fixpoint join_append_data (field : string) : string :=
  match field with
  | EmptyString => EmptyString
  | String c rest =>
      if Ascii.eqb c quotechar
      then String quotechar (String quotechar (join_append_data rest))
      else String c (join_append_data rest)
  end.

Definition join_append (field : string) : string :=
  if any_char needs_quoting field
  then String quotechar (join_append_data field ++ String quotechar EmptyString)
  else field.

(** [writer.writerow(fields)]: a record that comes out empty although it has
    a field (one empty field) is written as a pair of quotes. *)
Definition writerow (fields : list string) : string :=
  let rec := String.concat (String delimiter EmptyString)
                           (map join_append fields) in
  (if (0 <? List.length fields)%nat && (String.length rec =? 0)%nat
   then String quotechar (String quotechar EmptyString)
   else rec) ++ lineterminator.

Fixpoint writerows (rows : list (list string)) : string :=
  match rows with
  | [] => EmptyString
  | fields :: rest => writerow fields ++ writerows rest
  end.

(** ** Streamlit calls and the outside world *)

(** The text of a notice.  The f-strings of the program keep the value they
    interpolate. *)
Inductive message : Type :=
| Literal (s : string)
| Error_fetching_data (e : exn)          (* f"Error fetching data: {str(e)}" *)
| Error_converting_data (e : exn)        (* f"Error converting data to CSV: {str(e)}" *)
| Found_subsidiaries (count : json).     (* f"Found {data.get('count', 0)} subsidiaries" *)

Inductive st_call : Type :=
| StTitle (body : string)
| StWrite (body : string)
| StTextInput (label value : string)
| StButton (label : string)
| StSpinner (text : string)
| StWarning (m : message)
| StError (m : message)
| StSuccess (m : message)
| StDownloadButton (label data file_name mime : string)
| StSubheader (body : string)
| StDataframe (df : DataFrame).

(** The body of a response, by what [json.loads] makes of its text: a
    value; a [JSONDecodeError] for a text that is not JSON, the empty text
    included; a [ValueError] for an integer literal of more than 4300
    digits; a [RecursionError] for lists or objects nested beyond the
    recursion limit. *)
Inductive http_body : Type :=
| Json (v : json)
| Malformed
| IntegerTooLong
| NestedTooDeep.

(** What the request comes to: it fails on the way, or the server sends a
    status line and a body.  A response is the last one of the exchange:
    the one after the redirects [requests] follows. *)
Inductive http_result : Type :=
| Failed (e : request_exception)
| Response (status_code : Z) (body : http_body).

(** One run of the script: what the user typed and whether the button was
    pressed, what the server sends for a request, and what the clock shows
    ([datetime.now().strftime("%Y%m%d_%H%M%S")]). *)
Record World : Type := {
  text_input : string;
  button : bool;
  requests_get : string -> dict string -> http_result;
  now_strftime : string
}.

(** A computation reads the world, appends to the list of Streamlit calls
    made so far and ends in an [outcome]. *)
Definition script (A : Type) : Type :=
  World -> list st_call -> outcome A * list st_call.

Definition ret {A} (a : A) : script A := fun _ log => (Return a, log).

Definition bind {A B} (m : script A) (k : A -> script B) : script B :=
  fun w log =>
    match m w log with
    | (Return a, log') => k a w log'
    | (Raise e, log') => (Raise e, log')
    | (Unmodelled, log') => (Unmodelled, log')
    end.

Definition lift {A} (o : outcome A) : script A := fun _ log => (o, log).

Definition raise {A} (e : exn) : script A := lift (Raise e).

Definition call (c : st_call) : script unit :=
  fun _ log => (Return tt, (log ++ [c])%list).

Definition ask {A} (f : World -> A) : script A :=
  fun w log => (Return (f w), log).

(** [try: body except <class> as e: handler e] *)
Definition try_except {A} (body : script A) (class : exn -> bool)
    (handler : exn -> script A) : script A :=
  fun w log =>
    match body w log with
    | (Raise e, log') => if class e then handler e w log' else (Raise e, log')
    | r => r
    end.

Declare Scope script_scope.
Delimit Scope script_scope with script.
Notation "x <- m ;; k" := (bind m (fun x => k))
  (at level 61, m at next level, right associativity) : script_scope.
Notation "m ;; k" := (bind m (fun _ => k))
  (at level 61, right associativity) : script_scope.
Open Scope script_scope.

Definition st_title s := call (StTitle s).
Definition st_write s := call (StWrite s).
Definition st_text_input (label value : string) : script string :=
  call (StTextInput label value) ;; ask text_input.
Definition st_button (label : string) : script bool :=
  call (StButton label) ;; ask button.
Definition st_spinner s := call (StSpinner s).
Definition st_warning s := call (StWarning (Literal s)).
Definition st_error m := call (StError m).
Definition st_success m := call (StSuccess m).
Definition st_download_button label data file_name mime :=
  call (StDownloadButton label data file_name mime).
Definition st_subheader s := call (StSubheader s).
Definition st_dataframe df := call (StDataframe df).

(** [a or b] with Python's short circuit. *)
Definition or_else (a b : script bool) : script bool :=
  x <- a ;; if x then ret true else b.

(** [except requests.exceptions.RequestException] and [except Exception] *)
Definition isinstance_RequestException (e : exn) : bool :=
  match e with RequestException _ => true | _ => false end.

Definition isinstance_Exception (e : exn) : bool := true.

(** *** requests *)

(** http.client takes a status line only with a code from 100 to 999
    ([BadStatusLine] otherwise), and skips a 100 to read the response that
    follows: when there is none, the connection has failed.  [requests]
    raises its [ConnectionError] for both. *)
Definition bad_status (status_code : Z) : bool :=
  ((status_code <=? 100) || (999 <? status_code))%Z.

(** http.client reads no body after a status 1xx, 204 or 304: the content
    of the response is empty whatever the server sent. *)
Definition no_body (status_code : Z) : bool :=
  ((status_code <? 200) || (status_code =? 204) || (status_code =? 304))%Z.

(** [requests.get(url, params=params)]: the response with its status code
    and its content. *)
Definition get_request (url : string) (params : dict string)
  : script (Z * http_body) :=
  r <- ask (fun w => requests_get w url params) ;;
  match r with
  | Failed e => raise (RequestException e)
  | Response status_code body =>
      if bad_status status_code
      then raise (RequestException ConnectionError)
      else ret (status_code,
                if no_body status_code then Malformed else body)
  end.

Definition raise_for_status (response : Z * http_body) : script unit :=
  let status_code := fst response in
  if ((400 <=? status_code) && (status_code <? 600))%Z
  then raise (RequestException (HTTPError status_code))
  else ret tt.

(** [response.json()]: only the [JSONDecodeError] of [json.loads] is turned
    into an exception of [requests]. *)
Definition response_json (response : Z * http_body) : script json :=
  match snd response with
  | Json v => ret v
  | Malformed => raise (RequestException JSONDecodeError)
  | IntegerTooLong => raise ValueError
  | NestedTooDeep => raise RecursionError
  end.

(** ** The program *)

Section Program.

(** What [to_csv] writes for a value that is neither a string nor missing:
    the text depends on the dtype pandas infers for the whole column (an
    integer in a column with a gap is written as a float) and on Python's
    [repr] of floats and lists.  It is left open. *)
Variable str_value : list cell -> json -> string.

Definition format_cell (column : list cell) (c : cell) : string :=
  match c with
  | None => ""                      (* NaN: na_rep *)
  | Some JNull => ""                (* None: na_rep *)
  | Some (JStr s) => s
  | Some v => str_value column v
  end.

(** The rows [df.to_csv(index=False)] hands to the writer: the labels, then
    row [i] of every column for each [i] of the index. *)
Definition to_csv_rows (df : DataFrame) : list (list string) :=
  labels df ::
  map (fun i => map (fun c => format_cell (snd c) (nth i (snd c) None))
                    (columns df))
      (seq 0 (index df)).

(** [df.to_csv(output, index=False, encoding='utf-8'); output.getvalue()] *)
Definition to_csv (df : DataFrame) : string := writerows (to_csv_rows df).

(** get_subs.py, lines 15 to 29 *)
Definition get_subsidiaries (parent_name : string) : script json :=
  let base_url := "https://dev-monotypeai.huhoka.com/tools/subsidiaries" in
  let params := [("main_parent_name", parent_name)] in
  try_except
    (response <- get_request base_url params ;;
     raise_for_status response ;;
     response_json response)
    isinstance_RequestException
    (fun e =>
       st_error (Error_fetching_data e) ;;
       ret JNull).

(** get_subs.py, lines 51 to 56 *)
Definition columns_to_exclude : list string :=
  [ "id"; "uId"; "dType"; "main_parent_id"; "record_update_date";
    "createdBy"; "createdAt"; "updatedBy"; "updatedAt"; "version";
    "active"; "archived"; "domains"; "validatedAt"; "_rid"; "_self";
    "_etag"; "_attachments"; "_ts" ].

(** get_subs.py, line 59: the columns of the list that the frame has are
    dropped. *)
Definition json_to_csv_drop (df : DataFrame) : outcome DataFrame :=
  drop (filter (fun col => label_in col df) columns_to_exclude)
       errors_ignore df.

(** get_subs.py, lines 31 to 77 *)
Definition json_to_csv (api_response : json) (parent_identifier : string)
  : script (option string * option string) :=
  try_except
    (invalid <-
       or_else (ret (negb (truthy api_response)))
      (or_else (b <- lift (contains "status" api_response) ;; ret (negb b))
               (s <- lift (getitem api_response "status") ;;
                ret (negb (eq_str s "success")))) ;;
     if invalid then
       st_error (Literal "Invalid or empty response from the API") ;;
       ret (None, None)
     else
       subsidiaries <- lift (get api_response "subsidiaries" (JArr [])) ;;
       if negb (truthy subsidiaries) then
         st_warning "No subsidiaries found for the given criteria" ;;
         ret (None, None)
       else
         df <- lift (json_normalize subsidiaries) ;;
         df <- lift (json_to_csv_drop df) ;;
         let csv_data := to_csv df in
         timestamp <- ask now_strftime ;;
         let filename :=
           parent_identifier ++ "_subsidiaries_" ++ timestamp ++ ".csv" in
         ret (Some csv_data, Some filename))
    isinstance_Exception
    (fun e =>
       st_error (Error_converting_data e) ;;
       ret (None, None)).

(** get_subs.py, lines 126 to 131: the second copy of the list, in [main]. *)
Definition main_columns_to_exclude : list string :=
  [ "id"; "uId"; "dType"; "main_parent_id"; "record_update_date";
    "createdBy"; "createdAt"; "updatedBy"; "updatedAt"; "version";
    "active"; "archived"; "domains"; "validatedAt"; "_rid"; "_self";
    "_etag"; "_attachments"; "_ts" ].

(** get_subs.py, line 132 *)
Definition main_drop (df_preview : DataFrame) : outcome DataFrame :=
  drop (filter (fun col => label_in col df_preview) main_columns_to_exclude)
       errors_ignore df_preview.

(** [x and y] on the two results of [json_to_csv]: both present and not
    empty. *)
Definition both_truthy (csv_data filename : option string) : bool :=
  match csv_data, filename with
  | Some c, Some f => str_truthy c && str_truthy f
  | _, _ => false
  end.

(** get_subs.py, lines 79 to 134 *)
Definition main : script unit :=
  st_title "📊 Subsidiary Data Extractor" ;;
  st_write "Enter Parent Name to fetch subsidiary data" ;;
  parent_name <- st_text_input "Parent Name" "" ;;
  st_write "" ;;
  pressed <- st_button "Get Subsidiaries" ;;
  if pressed then
    if negb (str_truthy parent_name) then
      st_warning "Please enter a Parent Name"
    else
      st_spinner "Fetching subsidiary data..." ;;
      data <- get_subsidiaries parent_name ;;
      if truthy data then
        let parent_identifier := parent_name in
        r <- json_to_csv data parent_identifier ;;
        let csv_data := fst r in
        let filename := snd r in
        if both_truthy csv_data filename then
          count <- lift (get data "count" (JInt 0)) ;;
          st_success (Found_subsidiaries count) ;;
          st_download_button "Download CSV File"
            (match csv_data with Some c => c | None => "" end)
            (match filename with Some f => f | None => "" end)
            "text/csv" ;;
          st_success (Literal "Data fetched successfully! Click the button above to download the CSV file.") ;;
          st_subheader "Data Preview" ;;
          subsidiaries <- lift (get data "subsidiaries" (JArr [])) ;;
          df_preview <- lift (json_normalize subsidiaries) ;;
          df_preview <- lift (main_drop df_preview) ;;
          st_dataframe (head df_preview)
        else ret tt
      else ret tt
  else ret tt.

End Program.

(** ** Reading a CSV text back

    [csv.reader] with the same dialect over the text opened with
    [newline=''], as the csv module asks: outside quotes a line feed, a
    carriage return, or the two in a row end the record; inside quotes every
    character but the quote is data. *)

Inductive reader_state : Type :=
| START_RECORD
| START_FIELD
| IN_FIELD
| IN_QUOTED_FIELD
| QUOTE_IN_QUOTED_FIELD
| EAT_CRNL.

Record reader : Type := {
  state : reader_state;
  field : string;
  fields : list string
}.

Definition add_char (c : ascii) (st : reader_state) (r : reader) : reader :=
  {| state := st; field := field r ++ String c EmptyString;
     fields := fields r |}.

Definition save_field (st : reader_state) (r : reader) : reader :=
  {| state := st; field := EmptyString;
     fields := (fields r ++ [field r])%list |}.

Definition new_record (st : reader_state) : reader :=
  {| state := st; field := EmptyString; fields := [] |}.

(** The record ends: the field is saved and the record handed out. *)
Definition end_record (c : ascii) (r : reader)
  : reader * option (list string) :=
  (new_record (if Ascii.eqb c CR then EAT_CRNL else START_RECORD),
   Some (fields r ++ [field r])%list).

Definition is_newline (c : ascii) : bool := Ascii.eqb c LF || Ascii.eqb c CR.

Definition start_field (c : ascii) (r : reader)
  : reader * option (list string) :=
  if is_newline c then end_record c r
  else if Ascii.eqb c quotechar then
    ({| state := IN_QUOTED_FIELD; field := field r; fields := fields r |}, None)
  else if Ascii.eqb c delimiter then (save_field START_FIELD r, None)
  else (add_char c IN_FIELD r, None).

Definition start_record (c : ascii) (r : reader)
  : reader * option (list string) :=
  if is_newline c
  then (new_record (if Ascii.eqb c CR then EAT_CRNL else START_RECORD), Some [])
  else start_field c r.

Definition parse_process_char (r : reader) (c : ascii)
  : reader * option (list string) :=
  match state r with
  | START_RECORD => start_record c r
  | EAT_CRNL =>
      if Ascii.eqb c LF then (new_record START_RECORD, None)
      else start_record c r
  | START_FIELD => start_field c r
  | IN_FIELD =>
      if is_newline c then end_record c r
      else if Ascii.eqb c delimiter then (save_field START_FIELD r, None)
      else (add_char c IN_FIELD r, None)
  | IN_QUOTED_FIELD =>
      if Ascii.eqb c quotechar then
        ({| state := QUOTE_IN_QUOTED_FIELD; field := field r;
            fields := fields r |}, None)
      else (add_char c IN_QUOTED_FIELD r, None)
  | QUOTE_IN_QUOTED_FIELD =>
      if Ascii.eqb c quotechar then (add_char c IN_QUOTED_FIELD r, None)
      else if Ascii.eqb c delimiter then (save_field START_FIELD r, None)
      else if is_newline c then end_record c r
      else (add_char c IN_FIELD r, None)
  end.

Fixpoint read_from (r : reader) (text : string) : list (list string) :=
  match text with
  | EmptyString =>
      match state r with
      | START_RECORD | EAT_CRNL => []
      | _ => [(fields r ++ [field r])%list]
      end
  | String c rest =>
      match parse_process_char r c with
      | (r', Some record) => record :: read_from r' rest
      | (r', None) => read_from r' rest
      end
  end.

Definition csv_reader (text : string) : list (list string) :=
  read_from (new_record START_RECORD) text.

(** ** Notions the statements below use *)

(** *** Nested values and their flattening *)

(** Induction over JSON values that reaches into lists and dicts. *)
Fixpoint json_nested_ind (P : json -> Prop)
    (Hnull : P JNull) (Hbool : forall b, P (JBool b))
    (Hint : forall z, P (JInt z)) (Hfloat : forall m e, P (JFloat m e))
    (Hstr : forall s, P (JStr s))
    (Harr : forall l, Forall P l -> P (JArr l))
    (Hobj : forall d, Forall (fun kv => P (snd kv)) d -> P (JObj d))
    (v : json) {struct v} : P v :=
  let rec := json_nested_ind Hnull Hbool Hint Hfloat Hstr Harr Hobj in
  match v with
  | JNull => Hnull
  | JBool b => Hbool b
  | JInt z => Hint z
  | JFloat m e => Hfloat m e
  | JStr s => Hstr s
  | JArr l =>
      Harr l ((fix all (l : list json) : Forall P l :=
                 match l with
                 | [] => Forall_nil P
                 | x :: l' => Forall_cons x (rec x) (all l')
                 end) l)
  | JObj d =>
      Hobj d ((fix all (d : list (string * json))
                 : Forall (fun kv => P (snd kv)) d :=
                 match d with
                 | [] => Forall_nil _
                 | kv :: d' =>
                     @Forall_cons _ (fun kv => P (snd kv)) kv d'
                       (rec (snd kv)) (all d')
                 end) d)
  end.

(** The loop of [_normalise_json] over the items of a dict, by itself. *)
Fixpoint normalise_items (items : list (string * json)) (key_string : string)
    (normalized_dict : dict json) : dict json :=
  match items with
  | [] => normalized_dict
  | (key, value) :: rest =>
      let new_key := key_string ++ separator ++ key in
      let new_key :=
        if negb (str_truthy key_string)
        then removeprefix separator new_key else new_key in
      normalise_items rest key_string
        (_normalise_json value new_key normalized_dict)
  end.

(** The key [_normalise_json] passes down for [key] under [key_string]. *)
Definition new_key (key_string key : string) : string :=
  if negb (str_truthy key_string) then key
  else key_string ++ separator ++ key.

(** The key under which the value at the end of [path] is stored. *)
Definition path_key (key_string : string) (path : list string) : string :=
  fold_left new_key path key_string.

(** [leaf_at path v x]: following [path] key by key from [v] through nested
    dicts ends at [x]. *)
Inductive leaf_at : list string -> json -> json -> Prop :=
| leaf_here : forall v, leaf_at [] v v
| leaf_under : forall k path d v x,
    In (k, v) d -> leaf_at path v x -> leaf_at (k :: path) (JObj d) x.

(** The column name of the dotted-path convention. *)
Definition dotted_path (path : list string) : string :=
  String.concat separator path.

(** The flat dict [json_normalize] makes of one element of the list. *)
Definition flat_record (s : json) : dict json :=
  match s with
  | JObj d => _normalise_json_ordered d
  | _ => []
  end.

(** *** Frames *)

(** One step of [fast_unique_multiple_list_gen]. *)
Definition add_unique (uniques : list string) (k : string) : list string :=
  if existsb (String.eqb k) uniques then uniques else (uniques ++ [k])%list.

(** A name of the exclusion list. *)
Definition excluded (col : string) : bool :=
  existsb (String.eqb col) columns_to_exclude.

(** What a frame keeps of its columns once the excluded ones are dropped. *)
Definition without_excluded (df : DataFrame) : DataFrame :=
  {| index := index df;
     columns := filter (fun c => negb (excluded (fst c))) (columns df) |}.

(** The frame [json_to_csv] serialises for a list of records. *)
Definition export_frame (subsidiaries : list json) : DataFrame :=
  without_excluded (DataFrame_of_dicts (map flat_record subsidiaries)).

Section Rows.
Variable str_value : list cell -> json -> string.

(** The fields of one record under the columns of a frame: for each column
    the text of the record's value there, blank when it has none. *)
Definition record_row (df : DataFrame) (s : json) : list string :=
  map (fun c => format_cell str_value (snd c)
                  (dict_get (fst c) (flat_record s)))
      (columns df).
End Rows.

(** *** Envelopes and runs *)

(** The envelope of the data model: [status] is ["success"] and
    [subsidiaries] is a list, not empty, of records (JSON objects).  The
    list is returned. *)
Definition envelope_subsidiaries (envelope : json) : option (list json) :=
  match envelope with
  | JObj d =>
      match dict_get "status" d, dict_get "subsidiaries" d with
      | Some (JStr s), Some (JArr subs) =>
          if String.eqb s "success"
             && negb (Nat.eqb (List.length subs) 0)
             && forallb isinstance_dict subs
          then Some subs else None
      | _, _ => None
      end
  | _ => None
  end.

(** The [status] field is absent or is not ["success"]. *)
Definition status_not_success (envelope : json) : bool :=
  match envelope with
  | JObj d =>
      match dict_get "status" d with
      | Some v => negb (eq_str v "success")
      | None => true
      end
  | _ => true
  end.

(** The value [data.get('count', 0)] of an envelope that is a dict. *)
Definition count_field (envelope : json) : json :=
  match envelope with
  | JObj d => match dict_get "count" d with Some v => v | None => JInt 0 end
  | _ => JInt 0
  end.

(** The file name of the export. *)
Definition export_filename (parent_identifier : string) (w : World) : string :=
  parent_identifier ++ "_subsidiaries_" ++ now_strftime w ++ ".csv".

Definition base_url : string :=
  "https://dev-monotypeai.huhoka.com/tools/subsidiaries".

(** The answer of the network to the one request of a run. *)
Definition answer (w : World) : http_result :=
  requests_get w base_url [("main_parent_name", text_input w)].

Definition http_error (status_code : Z) : bool :=
  ((400 <=? status_code) && (status_code <? 600))%Z.

(** A status with which the body is read and decoded: one http.client
    takes, that comes with a body, and that [raise_for_status] lets
    through (200 to 399 but 204 and 304, and 600 to 999). *)
Definition status_with_body (status_code : Z) : bool :=
  negb (bad_status status_code) && negb (http_error status_code)
  && negb (no_body status_code).

(** A run where the user typed a name and pressed the button, and the fetch
    brought back [envelope]: a response whose status [raise_for_status] lets
    through, with this JSON body. *)
Definition fetched (w : World) (envelope : json) : Prop :=
  button w = true /\
  str_truthy (text_input w) = true /\
  exists status_code,
    answer w = Response status_code (Json envelope) /\
    status_with_body status_code = true.

(** A run where the user typed a name and pressed the button, and the fetch
    failed with the exception [e] of [requests]: [requests.get] raised it,
    or [raise_for_status] did, or there was no body or one that is not
    JSON. *)
Definition fetch_failed (w : World) (e : request_exception) : Prop :=
  button w = true /\
  str_truthy (text_input w) = true /\
  (answer w = Failed e \/
   (exists status_code body,
      answer w = Response status_code body /\
      bad_status status_code = true /\ e = ConnectionError) \/
   (exists status_code body,
      answer w = Response status_code body /\
      bad_status status_code = false /\
      http_error status_code = true /\ e = HTTPError status_code) \/
   (exists status_code body,
      answer w = Response status_code body /\
      bad_status status_code = false /\
      http_error status_code = false /\
      (no_body status_code = true \/ body = Malformed) /\
      e = JSONDecodeError)).

(** A run where the user typed a name and pressed the button, and decoding
    the body raised [e], which is no exception of [requests]. *)
Definition fetch_raised (w : World) (e : exn) : Prop :=
  button w = true /\
  str_truthy (text_input w) = true /\
  exists status_code body,
    answer w = Response status_code body /\
    status_with_body status_code = true /\
    (body = IntegerTooLong /\ e = ValueError \/
     body = NestedTooDeep /\ e = RecursionError).

(** The calls [main] makes on every run, and those up to the fetch. *)
Definition input_calls : list st_call :=
  [ StTitle "📊 Subsidiary Data Extractor";
    StWrite "Enter Parent Name to fetch subsidiary data";
    StTextInput "Parent Name" "";
    StWrite "";
    StButton "Get Subsidiaries" ].

Definition page_calls : list st_call :=
  (input_calls ++ [StSpinner "Fetching subsidiary data..."])%list.

(** The calls of a run that produced a CSV. *)
Definition success_calls (count : json) (csv_data filename : string)
    (df_preview : DataFrame) : list st_call :=
  [ StSuccess (Found_subsidiaries count);
    StDownloadButton "Download CSV File" csv_data filename "text/csv";
    StSuccess (Literal "Data fetched successfully! Click the button above to download the CSV file.");
    StSubheader "Data Preview";
    StDataframe (head df_preview) ].

Definition is_error (c : st_call) : bool :=
  match c with StError _ => true | _ => false end.

Definition is_download (c : st_call) : bool :=
  match c with StDownloadButton _ _ _ _ => true | _ => false end.

(** Everything [json_to_csv] can come to, by the path taken. *)
Inductive json_to_csv_result (str_value : list cell -> json -> string)
    (api_response : json) (parent_identifier : string) (w : World)
    (log : list st_call)
  : outcome (option string * option string) * list st_call -> Prop :=
| result_invalid : forall m,
    status_not_success api_response = true ->
    json_to_csv_result str_value api_response parent_identifier w log
      (Return (None, None), (log ++ [StError m])%list)
| result_empty : forall subsidiaries,
    status_not_success api_response = false ->
    get api_response "subsidiaries" (JArr []) = Return subsidiaries ->
    truthy subsidiaries = false ->
    json_to_csv_result str_value api_response parent_identifier w log
      (Return (None, None),
       (log ++ [StWarning
                  (Literal "No subsidiaries found for the given criteria")])%list)
| result_raised : forall subsidiaries e,
    status_not_success api_response = false ->
    get api_response "subsidiaries" (JArr []) = Return subsidiaries ->
    truthy subsidiaries = true ->
    json_normalize subsidiaries = Raise e ->
    json_to_csv_result str_value api_response parent_identifier w log
      (Return (None, None),
       (log ++ [StError (Error_converting_data e)])%list)
| result_csv : forall subsidiaries df,
    status_not_success api_response = false ->
    get api_response "subsidiaries" (JArr []) = Return subsidiaries ->
    truthy subsidiaries = true ->
    json_normalize subsidiaries = Return df ->
    json_to_csv_result str_value api_response parent_identifier w log
      (Return (Some (to_csv str_value (without_excluded df)),
               Some (export_filename parent_identifier w)), log)
| result_unmodelled : forall subsidiaries,
    status_not_success api_response = false ->
    get api_response "subsidiaries" (JArr []) = Return subsidiaries ->
    truthy subsidiaries = true ->
    json_normalize subsidiaries = Unmodelled ->
    json_to_csv_result str_value api_response parent_identifier w log
      (Unmodelled, log).

(** Everything [main] can come to, by the path taken. *)
Inductive main_result (str_value : list cell -> json -> string) (w : World)
  : outcome unit * list st_call -> Prop :=
| main_idle :
    button w = false ->
    main_result str_value w (Return tt, input_calls)
| main_no_name :
    button w = true ->
    str_truthy (text_input w) = false ->
    main_result str_value w
      (Return tt,
       (input_calls ++ [StWarning (Literal "Please enter a Parent Name")])%list)
| main_fetch_failed : forall e,
    fetch_failed w e ->
    main_result str_value w
      (Return tt,
       (page_calls
          ++ [StError (Error_fetching_data (RequestException e))])%list)
| main_falsy : forall data,
    fetched w data ->
    truthy data = false ->
    main_result str_value w (Return tt, page_calls)
| main_invalid : forall data m,
    fetched w data ->
    truthy data = true ->
    status_not_success data = true ->
    main_result str_value w (Return tt, (page_calls ++ [StError m])%list)
| main_empty : forall data subsidiaries,
    fetched w data ->
    status_not_success data = false ->
    get data "subsidiaries" (JArr []) = Return subsidiaries ->
    truthy subsidiaries = false ->
    main_result str_value w
      (Return tt,
       (page_calls
          ++ [StWarning
                (Literal "No subsidiaries found for the given criteria")])%list)
| main_raised : forall data subsidiaries e,
    fetched w data ->
    status_not_success data = false ->
    get data "subsidiaries" (JArr []) = Return subsidiaries ->
    truthy subsidiaries = true ->
    json_normalize subsidiaries = Raise e ->
    main_result str_value w
      (Return tt, (page_calls ++ [StError (Error_converting_data e)])%list)
| main_csv : forall data subsidiaries df count,
    fetched w data ->
    status_not_success data = false ->
    get data "subsidiaries" (JArr []) = Return subsidiaries ->
    truthy subsidiaries = true ->
    json_normalize subsidiaries = Return df ->
    get data "count" (JInt 0) = Return count ->
    main_result str_value w
      (Return tt,
       (page_calls
          ++ success_calls count
               (to_csv str_value (without_excluded df))
               (export_filename (text_input w) w)
               (without_excluded df))%list)
| main_unmodelled : forall data subsidiaries,
    fetched w data ->
    status_not_success data = false ->
    get data "subsidiaries" (JArr []) = Return subsidiaries ->
    truthy subsidiaries = true ->
    json_normalize subsidiaries = Unmodelled ->
    main_result str_value w (Unmodelled, page_calls)
| main_fetch_raised : forall e,
    fetch_raised w e ->
    main_result str_value w (Raise e, page_calls).

(** *** Records read back *)

(** The reader in a given state. *)
Definition reader_at (st : reader_state) (f : string) (fs : list string)
  : reader :=
  {| state := st; field := f; fields := fs |}.

(** The text holds no carriage return. *)
Definition no_CR (f : string) : Prop := str_has CR f = false.

(** The text holds no carriage return, as a test. *)
Definition plain_text (s : string) : bool := negb (str_has CR s).

(** A record whose fields outside the exclusion list are strings, with no
    carriage return in key or value; an excluded field may hold anything but
    a dict. *)
Definition string_fields (s : json) : bool :=
  match s with
  | JObj r =>
      forallb (fun kv =>
                 if excluded (fst kv) then negb (isinstance_dict (snd kv))
                 else plain_text (fst kv)
                      && match snd kv with
                         | JStr t => plain_text t
                         | _ => false
                         end) r
  | _ => false
  end.

(** The text of field [k] of a record of strings, empty when it has none. *)
Definition source_text (k : string) (s : json) : string :=
  match s with
  | JObj r => match dict_get k r with
              | Some (JStr t) => t
              | _ => ""
              end
  | _ => ""
  end.

(** A record whose fields outside the exclusion list are scalars. *)
Definition scalar_fields (s : json) : bool :=
  match s with
  | JObj r =>
      forallb (fun kv =>
                 excluded (fst kv)
                 || negb (isinstance_dict (snd kv))
                    && negb (isinstance_list (snd kv))) r
  | _ => false
  end.

(** The fields of the records outside the exclusion list. *)
Definition source_values (subs : list json) : list (dict json) :=
  map (fun s => match s with
                | JObj r => filter (fun kv => negb (excluded (fst kv))) r
                | _ => []
                end) subs.

(** A record whose fields outside the exclusion list are strings with no
    carriage return in key or value; an excluded field may hold anything. *)
Definition strings_outside_exclusion (s : json) : bool :=
  match s with
  | JObj r =>
      forallb (fun kv =>
                 excluded (fst kv)
                 || match snd kv with
                    | JStr t => plain_text (fst kv) && plain_text t
                    | _ => false
                    end) r
  | _ => false
  end.

(** *** Examples *)

(** A rendering for the examples: their frames hold only strings and gaps,
    where [str_value] is not called. *)
Definition str_value_unused : list cell -> json -> string := fun _ _ => "".

(** A run with the name typed, the button pressed and the given answer. *)
Definition world (name : string) (r : http_result) : World :=
  {| text_input := name; button := true;
     requests_get := fun _ _ => r;
     now_strftime := "20250101_120000" |}.

(** Scenario 1 of the specification. *)
Definition scenario_1 : json :=
  JObj [ ("status", JStr "success"); ("count", JInt 2);
         ("subsidiaries",
          JArr [ JObj [("id", JStr "1"); ("name", JStr "Acme UK")];
                 JObj [("id", JStr "2"); ("name", JStr "Acme FR")] ]) ].

(** Scenario 2 of the specification. *)
Definition scenario_2 : dict json :=
  [("status", JStr "success"); ("count", JInt 0); ("subsidiaries", JArr [])].

(** An envelope whose [count] is not the length of its list. *)
Definition miscounted : dict json :=
  [ ("status", JStr "success"); ("count", JInt 5);
    ("subsidiaries",
     JArr [ JObj [("id", JStr "1"); ("name", JStr "Acme UK")];
            JObj [("id", JStr "2"); ("name", JStr "Acme FR")] ]) ].



(** Scenario 4 of the specification. *)
Definition scenario_4 : list json :=
  [ JObj [ ("name", JStr "Acme DE");
           ("address", JObj [("city", JStr "Berlin")]) ] ].

(** Two envelopes that differ in one scalar field: [null] and the empty
    string. *)
Definition name_null : json :=
  JObj [ ("status", JStr "success");
         ("subsidiaries", JArr [JObj [("name", JNull)]]) ].

Definition name_empty : json :=
  JObj [ ("status", JStr "success");
         ("subsidiaries", JArr [JObj [("name", JStr "")]]) ].

(** An excluded field that holds a nested object, and a record whose one
    key is the dotted name of its leaf. *)
Definition nested_id : json :=
  JObj [ ("status", JStr "success");
         ("subsidiaries", JArr [JObj [("id", JObj [("x", JStr "5")])]]) ].

Definition dotted_id : json :=
  JObj [ ("status", JStr "success");
         ("subsidiaries", JArr [JObj [("id.x", JStr "5")]]) ].

(** A name with a carriage return in it. *)
Definition name_with_CR : json :=
  JObj [ ("status", JStr "success");
         ("subsidiaries",
          JArr [JObj [("name", JStr (String "a" (String CR "b")))]]) ].

(** *** The module as a script, and further notions *)

Definition is_warning (c : st_call) : bool :=
  match c with StWarning _ => true | _ => false end.

Definition is_dataframe (c : st_call) : bool :=
  match c with StDataframe _ => true | _ => false end.

(** get_subs.py, lines 8 to 13 and 136 to 137: run as a script, the module
    configures the page and then calls [main]. *)
Inductive module_call : Type :=
| SetPageConfig (page_title page_icon layout : string)
| InMain (c : st_call).

Section Module_level.
Variable str_value : list cell -> json -> string.

Definition run_as_main (w : World) : outcome unit * list module_call :=
  let r := main str_value w [] in
  (fst r,
   SetPageConfig "Subsidiary Data Extractor" "📊" "wide"
   :: map InMain (snd r)).
End Module_level.

(** No element of the list of subsidiaries is itself a list: the frame is
    made of dicts (see [DataFrame_of_rows]). *)
Definition holds_no_list (api_response : json) : bool :=
  match api_response with
  | JObj d =>
      match dict_get "subsidiaries" d with
      | Some (JArr l) => forallb (fun x => negb (isinstance_list x)) l
      | _ => true
      end
  | _ => true
  end.

Definition is_set_page_config (c : module_call) : bool :=
  match c with SetPageConfig _ _ _ => true | InMain _ => false end.

Definition dot : ascii := "."%char.

(** A record whose creator is a nested object. *)
Definition created_by : json :=
  JObj [ ("status", JStr "success");
         ("subsidiaries",
          JArr [JObj [ ("name", JStr "Acme UK");
                       ("createdBy", JObj [("email", JStr "a@b.c")]) ]]) ].

(** Records whose every key is excluded. *)
Definition only_ids : json :=
  JObj [ ("status", JStr "success");
         ("subsidiaries",
          JArr [JObj [("id", JStr "1")]; JObj [("id", JStr "2")]]) ].

(** The notice of [json_to_csv] for an envelope without the status
    ["success"]: testing or reading ["status"] raises a [TypeError] for a
    number or [true], and for a list or a string that holds ["status"]. *)
Definition raises_TypeError (api_response : json) : bool :=
  match api_response with
  | JBool b => b
  | JInt z => negb (Z.eqb z 0)
  | JFloat m _ => negb (Z.eqb m 0)
  | JStr s => str_contains "status" s
  | JArr l => existsb (fun x => eq_str x "status") l
  | _ => false
  end.

Definition invalid_notice (api_response : json) : message :=
  if raises_TypeError api_response
  then Error_converting_data TypeError
  else Literal "Invalid or empty response from the API".

(** *** Tactics *)

(** Unfolds the plumbing of [script] and nothing of the data. *)
Ltac run_script :=
  cbv beta iota delta [try_except bind or_else ret lift raise ask st_error
    st_warning st_success st_title st_write st_text_input st_button
    st_spinner st_download_button st_subheader st_dataframe call contains
    getitem get fst snd negb andb orb isinstance_Exception
    isinstance_RequestException].


(** ** Frames: labels and dropping columns *)

Lemma existsb_eqb_In (c : string) (l : list string) :
  existsb (String.eqb c) l = true <-> In c l.
Proof.
  rewrite existsb_exists. split.
  - intros [x [Hin Heq]]. apply String.eqb_eq in Heq. now subst.
  - intros Hin. exists c. split; [assumption | apply String.eqb_refl].
Qed.

Lemma label_in_In (c : string) (df : DataFrame) :
  label_in c df = true <-> In c (labels df).
Proof. unfold label_in. apply existsb_eqb_In. Qed.

Lemma excluded_In (c : string) :
  excluded c = true <-> In c columns_to_exclude.
Proof. unfold excluded. apply existsb_eqb_In. Qed.

(** Dropping the names of a list that the frame has drops what dropping the
    whole list would. *)
Lemma kept_present_only (l : list string) (df : DataFrame) :
  filter (fun c => negb (existsb (String.eqb (fst c))
                           (filter (fun col => label_in col df) l)))
         (columns df)
  = filter (fun c => negb (existsb (String.eqb (fst c)) l)) (columns df).
Proof.
  apply filter_ext_in. intros c Hc. f_equal.
  apply eq_true_iff_eq. rewrite !existsb_eqb_In, filter_In, label_in_In.
  split; [tauto | intros Hin; split; [assumption |]].
  unfold labels. now apply in_map.
Qed.

Lemma json_to_csv_drop_eq (df : DataFrame) :
  json_to_csv_drop df
  = Return (without_excluded df).
Proof.
  unfold json_to_csv_drop, drop. now rewrite kept_present_only.
Qed.


Lemma main_drop_eq (df : DataFrame) : main_drop df = json_to_csv_drop df.
Proof. reflexivity. Qed.

Lemma labels_filter (p : string -> bool) (cols : list (string * list cell)) :
  map fst (filter (fun c => p (fst c)) cols) = filter p (map fst cols).
Proof.
  induction cols as [|c cols IH]; simpl; [reflexivity |].
  destruct (p (fst c)); simpl; now rewrite IH.
Qed.


(** ** The paths of [json_to_csv] *)

Lemma json_to_csv_paths str_value api_response parent_identifier w log :
  json_to_csv_result str_value api_response parent_identifier w log
    (json_to_csv str_value api_response parent_identifier w log).
Proof.
  unfold json_to_csv.
  destruct api_response as [ | b | z | m e | s | l | d ].
  1-6: unfold truthy; run_script.
  - now constructor.
  - destruct b; run_script; now constructor.
  - destruct (Z.eqb z 0); run_script; now constructor.
  - destruct (Z.eqb m 0); run_script; now constructor.
  - destruct (str_truthy s); run_script; [| now constructor].
    destruct (str_contains "status" s); run_script; now constructor.
  - destruct l; run_script; [now constructor |].
    destruct (existsb (fun x => eq_str x "status") (j :: l)); run_script;
      now constructor.
  - destruct d as [|kv d]; [unfold truthy; run_script; now constructor |].
    change (truthy (JObj (kv :: d))) with true.
    set (dd := kv :: d).
    assert (Hsub : exists subs,
               get (JObj dd) "subsidiaries" (JArr []) = Return subs)
      by (unfold get; destruct (dict_get "subsidiaries" dd); eauto).
    destruct Hsub as [subs Hsub].
    assert (Hst : status_not_success (JObj dd)
                  = match dict_get "status" dd with
                    | Some v => negb (eq_str v "success")
                    | None => true
                    end) by reflexivity.
    run_script. unfold dict_mem.
    destruct (dict_get "status" dd) as [st|]; run_script;
      [| now constructor].
    destruct (eq_str st "success"); run_script; [| now constructor].
    cbv beta iota delta [negb] in Hst.
    change (match dict_get "subsidiaries" dd with
            | Some x => Return x
            | None => Return (JArr [])
            end) with (get (JObj dd) "subsidiaries" (JArr [])).
    rewrite Hsub.
    destruct (truthy subs) eqn:Ht; run_script.
    + destruct (json_normalize subs) as [df| e |] eqn:Hn.
      * rewrite json_to_csv_drop_eq.
        apply (@result_csv str_value (JObj dd) parent_identifier w log subs df);
          assumption.
      * eapply result_raised; eassumption.
      * eapply result_unmodelled; eassumption.
    + eapply result_empty; eassumption.
Qed.

(** ** The paths of [get_subsidiaries] *)

Lemma get_subsidiaries_eq parent_name w log :
  get_subsidiaries parent_name w log
  = match requests_get w base_url [("main_parent_name", parent_name)] with
    | Failed e =>
        (Return JNull,
         (log ++ [StError (Error_fetching_data (RequestException e))])%list)
    | Response status_code body =>
        if bad_status status_code
        then (Return JNull,
              (log ++ [StError (Error_fetching_data
                                  (RequestException ConnectionError))])%list)
        else if http_error status_code
        then (Return JNull,
              (log ++ [StError (Error_fetching_data
                                  (RequestException (HTTPError status_code)))])%list)
        else match (if no_body status_code then Malformed else body) with
             | Json v => (Return v, log)
             | Malformed =>
                 (Return JNull,
                  (log ++ [StError (Error_fetching_data
                                      (RequestException JSONDecodeError))])%list)
             | IntegerTooLong => (Raise ValueError, log)
             | NestedTooDeep => (Raise RecursionError, log)
             end
    end.
Proof.
  unfold get_subsidiaries, get_request, raise_for_status, response_json,
    base_url, http_error.
  run_script.
  destruct (requests_get w _ _) as [e | status_code body]; run_script;
    [reflexivity |].
  destruct (bad_status status_code); run_script; [reflexivity |].
  destruct ((400 <=? status_code)%Z); run_script;
    [destruct ((status_code <? 600)%Z); run_script |];
    try reflexivity;
    destruct (if no_body status_code then Malformed else body); reflexivity.
Qed.

(** ** The paths of [main] *)

Lemma str_truthy_append_r (a b : string) :
  str_truthy b = true -> str_truthy (a ++ b) = true.
Proof. destruct a; simpl; auto. Qed.

Lemma str_truthy_append_l (a b : string) :
  str_truthy a = true -> str_truthy (a ++ b) = true.
Proof. destruct a; simpl; [discriminate | reflexivity]. Qed.

Lemma writerow_truthy (fields : list string) :
  str_truthy (writerow fields) = true.
Proof. unfold writerow. now apply str_truthy_append_r. Qed.

Lemma to_csv_truthy str_value df : str_truthy (to_csv str_value df) = true.
Proof.
  unfold to_csv, to_csv_rows. cbn [writerows].
  apply str_truthy_append_l, writerow_truthy.
Qed.

Lemma export_filename_truthy parent_identifier w :
  str_truthy (export_filename parent_identifier w) = true.
Proof.
  unfold export_filename. now apply str_truthy_append_r.
Qed.

Lemma status_success_dict (v : json) :
  status_not_success v = false ->
  exists d, v = JObj d /\ truthy v = true.
Proof.
  destruct v as [ | | | | | | d]; try discriminate. intros H. exists d.
  split; [reflexivity |]. destruct d; [discriminate | reflexivity].
Qed.

Lemma main_paths str_value w : main_result str_value w (main str_value w []).
Proof.
  unfold main. run_script. cbn [app].
  destruct (button w) eqn:Hb; [| now constructor].
  destruct (str_truthy (text_input w)) eqn:Hn; run_script;
    [| now apply main_no_name].
  cbn [app]. rewrite get_subsidiaries_eq. fold (answer w).
  change [StTitle "📊 Subsidiary Data Extractor";
     StWrite "Enter Parent Name to fetch subsidiary data";
     StTextInput "Parent Name" ""; StWrite ""; StButton "Get Subsidiaries";
     StSpinner "Fetching subsidiary data..."] with page_calls.
  destruct (answer w) as [e | status_code body] eqn:Ha.
  { unfold truthy. apply main_fetch_failed. repeat split; auto. }
  destruct (bad_status status_code) eqn:Hbad.
  { unfold truthy. apply main_fetch_failed. repeat split; auto.
    right; left. eauto. }
  destruct (http_error status_code) eqn:He.
  { unfold truthy. apply main_fetch_failed. repeat split; auto.
    right; right; left. eauto 6. }
  destruct (no_body status_code) eqn:Hnb.
  { unfold truthy. apply main_fetch_failed. repeat split; auto.
    right; right; right. eauto 8. }
  assert (Hsb : status_with_body status_code = true)
    by (unfold status_with_body; now rewrite Hbad, He, Hnb).
  destruct body as [data| | |].
  2:{ unfold truthy. apply main_fetch_failed. repeat split; auto.
      right; right; right. eauto 8. }
  2:{ apply main_fetch_raised. repeat split; auto.
      exists status_code, IntegerTooLong. auto. }
  2:{ apply main_fetch_raised. repeat split; auto.
      exists status_code, NestedTooDeep. auto. }
  assert (Hf : fetched w data) by (repeat split; eauto).
  destruct (truthy data) eqn:Ht; [| now apply main_falsy with data].
  pose proof (json_to_csv_paths str_value data (text_input w) w page_calls)
    as Hp.
  inversion Hp as [ m Hs Hr | subs Hs Hg Hts Hr | subs e Hs Hg Hts Hn' Hr
                  | subs df Hs Hg Hts Hn' Hr | subs Hs Hg Hts Hn' Hr ];
    clear Hp; unfold both_truthy; run_script.
  - now apply main_invalid with data.
  - now apply main_empty with data subs.
  - now apply main_raised with data subs.
  - rewrite to_csv_truthy, export_filename_truthy. run_script.
    destruct (status_success_dict _ Hs) as [d [-> _]].
    assert (Hc : exists count, get (JObj d) "count" (JInt 0) = Return count)
      by (unfold get; destruct (dict_get "count" d); eauto).
    destruct Hc as [count Hc].
    change (match dict_get "count" d with
            | Some x => Return x | None => Return (JInt 0) end)
      with (get (JObj d) "count" (JInt 0)).
    change (match dict_get "subsidiaries" d with
            | Some x => Return x | None => Return (JArr []) end)
      with (get (JObj d) "subsidiaries" (JArr [])).
    rewrite Hc, Hg, Hn', main_drop_eq, json_to_csv_drop_eq. cbn [app].
    rewrite <- !app_assoc. cbn [app].
    now apply (main_csv str_value) with (JObj d) subs.
  - now apply main_unmodelled with data subs.
Qed.

Lemma fetched_same w data data' : fetched w data -> fetched w data' -> data = data'.
Proof.
  intros (_ & _ & sc & Ha & _) (_ & _ & sc' & Ha' & _).
  rewrite Ha in Ha'. now inversion Ha'.
Qed.

Lemma status_with_body_spec (status_code : Z) :
  status_with_body status_code = true ->
  bad_status status_code = false /\ http_error status_code = false /\
  no_body status_code = false.
Proof.
  unfold status_with_body. intros H.
  apply andb_prop in H as [H Hnb]. apply andb_prop in H as [Hbad He].
  now rewrite (proj1 (negb_true_iff _) Hbad), (proj1 (negb_true_iff _) He),
    (proj1 (negb_true_iff _) Hnb).
Qed.

Lemma fetched_not_failed w data e : fetched w data -> fetch_failed w e -> False.
Proof.
  intros (_ & _ & sc & Ha & Hsb) (_ & _ & Hf).
  apply status_with_body_spec in Hsb as (Hbad & He & Hnb).
  destruct Hf as [Ha' | [(sc' & b & Ha' & Hbad' & _)
                        | [(sc' & b & Ha' & _ & He' & _)
                          | (sc' & b & Ha' & _ & _ & Hb' & _)]]];
    rewrite Ha in Ha'; [discriminate | | |]; inversion Ha'; subst;
    try congruence.
  destruct Hb'; congruence.
Qed.


Lemma fetch_raised_not_fetched w data e :
  fetched w data -> fetch_raised w e -> False.
Proof.
  intros (_ & _ & sc & Ha & _) (_ & _ & sc' & b & Ha' & _ & Hb).
  rewrite Ha in Ha'. inversion Ha'; subst.
  destruct Hb as [[Hb _] | [Hb _]]; discriminate.
Qed.

Lemma fetch_raised_not_failed w e e' :
  fetch_failed w e -> fetch_raised w e' -> False.
Proof.
  intros (_ & _ & Hf) (_ & _ & sc & b & Ha & Hsb & Hb).
  apply status_with_body_spec in Hsb as (Hbad & He & Hnb).
  destruct Hf as [Ha' | [(sc' & b' & Ha' & Hbad' & _)
                        | [(sc' & b' & Ha' & _ & He' & _)
                          | (sc' & b' & Ha' & _ & _ & Hb' & _)]]];
    rewrite Ha in Ha'; [discriminate | | |]; inversion Ha'; subst;
    try congruence.
  destruct Hb' as [Hb' | Hb']; [congruence |].
  destruct Hb as [[Hb _] | [Hb _]]; congruence.
Qed.


(** ** Frames of lists of records *)

Lemma rows_as_dicts_records (subs : list json) :
  forallb isinstance_dict subs = true ->
  rows_as_dicts (map _simple_json_normalize subs) = Some (map flat_record subs).
Proof.
  induction subs as [|s subs IH]; [reflexivity |].
  cbn [forallb map]. intros H. apply andb_prop in H as [Hs Hr].
  destruct s; try discriminate.
  cbn [_simple_json_normalize rows_as_dicts flat_record].
  now rewrite (IH Hr).
Qed.

Lemma json_normalize_records (subs : list json) :
  subs <> [] ->
  forallb isinstance_dict subs = true ->
  json_normalize (JArr subs)
  = Return (DataFrame_of_dicts (map flat_record subs)).
Proof.
  intros Hne Hall. destruct subs as [|s subs]; [contradiction |].
  unfold json_normalize, DataFrame_of_rows.
  now rewrite (rows_as_dicts_records _ Hall).
Qed.

Lemma envelope_subsidiaries_spec (envelope : json) (subs : list json) :
  envelope_subsidiaries envelope = Some subs ->
  status_not_success envelope = false /\
  get envelope "subsidiaries" (JArr []) = Return (JArr subs) /\
  get envelope "count" (JInt 0) = Return (count_field envelope) /\
  truthy (JArr subs) = true /\
  subs <> [] /\
  forallb isinstance_dict subs = true.
Proof.
  destruct envelope as [ | | | | | | d]; try discriminate.
  unfold envelope_subsidiaries, status_not_success, get, count_field.
  destruct (dict_get "status" d) as [[ | | | | s | | ]|]; try discriminate.
  destruct (dict_get "subsidiaries" d) as [[ | | | | | l | ]|];
    try discriminate.
  destruct (String.eqb s "success") eqn:Hs; [| discriminate].
  destruct l as [|x l]; [discriminate |].
  destruct (forallb isinstance_dict (x :: l)) eqn:Hall; [| discriminate].
  intros H. inversion H; subst. unfold eq_str. rewrite Hs.
  repeat split; auto; try discriminate.
  destruct (dict_get "count" d); reflexivity.
Qed.

Lemma map_nth_seq {A B} (g : A -> B) (d : A) (l : list A) :
  map (fun i => g (nth i l d)) (seq 0 (List.length l)) = map g l.
Proof.
  induction l as [|x l IH]; [reflexivity |].
  cbn [List.length seq map nth]. f_equal.
  rewrite <- seq_shift, map_map. exact IH.
Qed.

Lemma frame_column (ds : list (dict json)) (c : string * list cell) :
  In c (columns (DataFrame_of_dicts ds)) ->
  snd c = map (dict_get (fst c)) ds.
Proof.
  unfold DataFrame_of_dicts. cbn [columns]. rewrite in_map_iff.
  intros [col [<- _]]. reflexivity.
Qed.

Lemma to_csv_rows_export str_value (subs : list json) :
  to_csv_rows str_value (export_frame subs)
  = labels (export_frame subs)
    :: map (record_row str_value (export_frame subs)) subs.
Proof.
  unfold to_csv_rows. f_equal.
  replace (index (export_frame subs)) with (List.length subs)
    by (unfold export_frame, without_excluded, DataFrame_of_dicts;
        cbn [index]; now rewrite length_map).
  rewrite <- (map_nth_seq (record_row str_value (export_frame subs)) JNull).
  apply map_ext. intros i. unfold record_row. apply map_ext_in.
  intros c Hc. f_equal.
  assert (Hcol : snd c = map (dict_get (fst c)) (map flat_record subs)).
  { apply frame_column. unfold export_frame, without_excluded in Hc.
    cbn [columns] in Hc. now apply filter_In in Hc. }
  rewrite Hcol, map_map.
  change (@None json) with (dict_get (fst c) (flat_record JNull)).
  now rewrite (map_nth (fun s => dict_get (fst c) (flat_record s))).
Qed.

(** ** Valid envelopes *)

Lemma json_to_csv_valid str_value envelope subs parent_identifier w log :
  envelope_subsidiaries envelope = Some subs ->
  json_to_csv str_value envelope parent_identifier w log
  = (Return (Some (to_csv str_value (export_frame subs)),
             Some (export_filename parent_identifier w)), log).
Proof.
  intros Hv.
  destruct (envelope_subsidiaries_spec _ Hv)
    as (Hs & Hg & _ & Ht & Hne & Hall).
  pose proof (json_normalize_records Hne Hall) as Hn.
  pose proof (json_to_csv_paths str_value envelope parent_identifier w log)
    as Hp.
  inversion Hp as [ m Hs' Hr | s Hs' Hg' Hts Hr | s e Hs' Hg' Hts Hn' Hr
                  | s df Hs' Hg' Hts Hn' Hr | s Hs' Hg' Hts Hn' Hr ];
    try congruence;
    rewrite Hg in Hg'; inversion Hg'; subst s; try congruence.
  rewrite Hn in Hn'. inversion Hn'; subst df. reflexivity.
Qed.

Lemma main_valid str_value w envelope subs :
  fetched w envelope ->
  envelope_subsidiaries envelope = Some subs ->
  main str_value w []
  = (Return tt,
     (page_calls
        ++ success_calls (count_field envelope)
             (to_csv str_value (export_frame subs))
             (export_filename (text_input w) w)
             (export_frame subs))%list).
Proof.
  intros Hf Hv.
  destruct (envelope_subsidiaries_spec _ Hv)
    as (Hs & Hg & Hc & Ht & Hne & Hall).
  pose proof (json_normalize_records Hne Hall) as Hn.
  pose proof (main_paths str_value w) as Hp.
  inversion Hp as [ Hb | Hb Hnm | e Hff | data Hf' Htd | data m Hf' Htd Hs'
                  | data s Hf' Hs' Hg' Hts | data s e Hf' Hs' Hg' Hts Hn'
                  | data s df count Hf' Hs' Hg' Hts Hn' Hc'
                  | data s Hf' Hs' Hg' Hts Hn'
                  | e_raised Hfr ];
    try (exfalso;
         solve [ eapply fetch_raised_not_fetched; eassumption
               | eapply fetch_raised_not_failed; eassumption ]);
    try (destruct Hf as (Hb' & Hnm' & _); congruence);
    try (exfalso; eapply fetched_not_failed; eassumption);
    pose proof (fetched_same Hf' Hf) as ->.
  - destruct (status_success_dict _ Hs) as (d & -> & Htd'). congruence.
  - congruence.
  - rewrite Hg in Hg'. inversion Hg'; subst s. congruence.
  - rewrite Hg in Hg'. inversion Hg'; subst s. congruence.
  - rewrite Hg in Hg'. inversion Hg'; subst s.
    rewrite Hn in Hn'. inversion Hn'; subst df.
    rewrite Hc in Hc'. inversion Hc'; subst count. reflexivity.
  - rewrite Hg in Hg'. inversion Hg'; subst s. congruence.
Qed.

(** ** Flattening *)

Lemma substring_all (s : string) : substring 0 (String.length s) s = s.
Proof. induction s as [|c s IH]; simpl; [reflexivity | now rewrite IH]. Qed.

Lemma new_key_eq (key_string key : string) :
  (if negb (str_truthy key_string)
   then removeprefix separator (key_string ++ separator ++ key)
   else key_string ++ separator ++ key)
  = new_key key_string key.
Proof.
  unfold new_key. destruct key_string as [|c ks]; [| reflexivity].
  cbn [str_truthy negb]. unfold removeprefix, separator. cbn.
  rewrite Nat.sub_0_r. destruct key; [reflexivity |]. 
  cbn. now rewrite substring_all.
Qed.

Lemma _normalise_json_items (items : list (string * json)) ks nd :
  _normalise_json (JObj items) ks nd = normalise_items items ks nd.
Proof.
  revert nd. induction items as [|[k v] items IH]; intros nd; [reflexivity |].
  cbn [normalise_items]. rewrite <- IH. reflexivity.
Qed.

Lemma normalise_items_cons k v items ks nd :
  normalise_items ((k, v) :: items) ks nd
  = normalise_items items ks (_normalise_json v (new_key ks k) nd).
Proof. cbn [normalise_items]. now rewrite new_key_eq. Qed.

Lemma keys_dict_set {V} (k : string) (v : V) (d : dict V) (x : string) :
  In x (keys (dict_set k v d)) <-> x = k \/ In x (keys d).
Proof.
  unfold keys. induction d as [|[k' v'] d IH]; cbn [dict_set map fst In].
  - intuition.
  - destruct (String.eqb k k') eqn:E; cbn [map fst In].
    + apply String.eqb_eq in E. subst. intuition.
    + rewrite IH. intuition.
Qed.

Lemma _normalise_json_keeps (v : json) : forall ks nd x,
  In x (keys nd) -> In x (keys (_normalise_json v ks nd)).
Proof.
  induction v using json_nested_ind; intros ks nd x Hx;
    try (cbn [_normalise_json]; apply keys_dict_set; now right).
  rewrite _normalise_json_items. revert nd Hx.
  induction H as [|[k v] d Hv _ IH]; intros nd Hx; [exact Hx |].
  rewrite normalise_items_cons. apply IH. now apply Hv.
Qed.

Lemma normalise_items_keeps items : forall ks nd x,
  In x (keys nd) -> In x (keys (normalise_items items ks nd)).
Proof.
  intros ks nd x. rewrite <- _normalise_json_items.
  apply _normalise_json_keeps.
Qed.

Lemma normalise_items_reaches items k v ks y :
  In (k, v) items ->
  (forall nd, In y (keys (_normalise_json v (new_key ks k) nd))) ->
  forall nd, In y (keys (normalise_items items ks nd)).
Proof.
  intros Hin Hy. induction items as [|[k' v'] items IH]; [contradiction |].
  intros nd. rewrite normalise_items_cons. destruct Hin as [Heq | Hin].
  - inversion Heq; subst. apply normalise_items_keeps, Hy.
  - now apply IH.
Qed.

Lemma leaf_stored path v x :
  leaf_at path v x ->
  isinstance_dict x = false ->
  forall ks nd, In (path_key ks path) (keys (_normalise_json v ks nd)).
Proof.
  induction 1 as [v | k path d v x Hin Hleaf IH]; intros Hx ks nd.
  - destruct v; try discriminate; cbn [_normalise_json path_key fold_left];
      apply keys_dict_set; now left.
  - rewrite _normalise_json_items. cbn [path_key fold_left].
    apply normalise_items_reaches with k v; [assumption |].
    intros nd'. now apply IH.
Qed.

Lemma stored_leaf (v : json) : forall ks nd c,
  In c (keys (_normalise_json v ks nd)) ->
  In c (keys nd) \/
  exists path x, leaf_at path v x /\ isinstance_dict x = false /\
                 c = path_key ks path.
Proof.
  induction v using json_nested_ind; intros ks nd c Hc;
    try (cbn [_normalise_json] in Hc; apply keys_dict_set in Hc;
         destruct Hc as [-> | Hc]; [right | now left];
         eexists [], _; repeat split; constructor).
  rewrite _normalise_json_items in Hc. revert nd Hc.
  induction H as [|[k v] d Hv Hd IH]; intros nd Hc; [now left |].
  rewrite normalise_items_cons in Hc.
  destruct (IH _ Hc) as [Hc' | (path & x & Hl & Hx & ->)].
  - destruct (Hv _ _ _ Hc') as [Hnd | (path & x & Hl & Hx & ->)];
      [now left | right].
    exists (k :: path), x. repeat split; [| assumption].
    apply leaf_under with v; [now left | assumption].
  - right. exists path, x. repeat split; [| assumption].
    inversion Hl; subst.
    + discriminate.
    + apply leaf_under with v0; [now right | assumption].
Qed.

Lemma new_key_truthy ks k : str_truthy ks = true -> str_truthy (new_key ks k) = true.
Proof.
  unfold new_key. intros H. rewrite H. cbn [negb].
  destruct ks; [discriminate | reflexivity].
Qed.

Lemma concat_cons_cons sep a b l :
  String.concat sep (a :: b :: l) = a ++ sep ++ String.concat sep (b :: l).
Proof. reflexivity. Qed.

Lemma append_assoc (a b c : string) : (a ++ b) ++ c = a ++ (b ++ c).
Proof. induction a as [|x a IH]; simpl; [reflexivity | now rewrite IH]. Qed.

Lemma path_key_dotted path : forall ks,
  str_truthy ks = true ->
  path_key ks path = dotted_path (ks :: path).
Proof.
  unfold dotted_path.
  induction path as [|k path IH]; intros ks Hks; [reflexivity |].
  cbn [path_key fold_left]. fold (path_key (new_key ks k) path).
  rewrite IH by now apply new_key_truthy.
  unfold new_key. rewrite Hks. cbn [negb].
  destruct path as [|k' path]; [reflexivity |].
  rewrite !concat_cons_cons, !append_assoc. reflexivity.
Qed.

Lemma keys_dict_merge {V} (b : dict V) : forall (a : dict V) (x : string),
  In x (keys (dict_merge a b)) <-> In x (keys a) \/ In x (keys b).
Proof.
  unfold dict_merge.
  induction b as [|[k v] b IH]; intros a x; cbn [fold_left fst snd].
  - cbn [keys map In]. tauto.
  - rewrite IH, keys_dict_set. unfold keys. cbn [map fst In].
    intuition.
Qed.

Lemma keys_filter_In (p : string * json -> bool) (d : dict json) (c : string) :
  In c (keys (filter p d)) <-> exists v, In (c, v) d /\ p (c, v) = true.
Proof.
  unfold keys. rewrite in_map_iff. split.
  - intros [[k v] [<- H]]. apply filter_In in H. now exists v.
  - intros [v [Hin Hp]]. exists (c, v). split; [reflexivity |].
    now apply filter_In.
Qed.

Lemma path_key_under (k : string) (path : list string) :
  path_key "" (k :: path) = path_key k path.
Proof. reflexivity. Qed.

Lemma str_truthy_neq (k : string) : k <> "" -> str_truthy k = true.
Proof. destruct k; [contradiction | reflexivity]. Qed.

Lemma leaf_at_scalar (v x : json) (path : list string) :
  isinstance_dict v = false -> leaf_at path v x -> path = [] /\ x = v.
Proof. intros Hv Hl. inversion Hl; subst; [auto | discriminate]. Qed.

(** Every value of a record that is not a dict, at whatever depth, has its
    column, named by the path to it. *)
Lemma flat_record_has_leaf (d : dict json) k v path x :
  In (k, v) d ->
  leaf_at path v x ->
  isinstance_dict x = false ->
  (isinstance_dict v = true -> k <> "") ->
  In (dotted_path (k :: path)) (keys (_normalise_json_ordered d)).
Proof.
  intros Hin Hl Hx Hk. unfold _normalise_json_ordered.
  apply keys_dict_merge. destruct (isinstance_dict v) eqn:Hv.
  - right. rewrite <- path_key_dotted by now apply str_truthy_neq, Hk.
    rewrite <- path_key_under. apply leaf_stored with x; [| assumption].
    apply leaf_under with v; [| assumption].
    apply filter_In. split; [assumption | exact Hv].
  - left. destruct (leaf_at_scalar Hv Hl) as [-> ->].
    apply keys_filter_In. exists v. split; [assumption |].
    cbn [snd]. now rewrite Hv.
Qed.

(** Every column of a record is the name of the path to one of its values
    that is not a dict. *)
Lemma flat_record_key_is_leaf (d : dict json) (c : string) :
  In c (keys (_normalise_json_ordered d)) ->
  exists k v path x,
    In (k, v) d /\ leaf_at path v x /\ isinstance_dict x = false /\
    c = path_key "" (k :: path).
Proof.
  unfold _normalise_json_ordered. intros Hc.
  apply keys_dict_merge in Hc. destruct Hc as [Hc | Hc].
  - apply keys_filter_In in Hc. destruct Hc as [v [Hin Hv]].
    cbn [snd] in Hv. apply negb_true_iff in Hv.
    exists c, v, [], v. repeat split; [assumption | constructor | assumption].
  - apply stored_leaf in Hc.
    destruct Hc as [[] | (path & x & Hl & Hx & ->)].
    inversion Hl as [| k path' d' v x' Hin Hl']; subst; [discriminate |].
    apply filter_In in Hin. destruct Hin as [Hin _].
    exists k, v, path', x. now repeat split.
Qed.

(** ** The columns of a frame *)

Lemma add_unique_In (ks : list string) : forall (u : list string) (x : string),
  In x (fold_left add_unique ks u) <-> In x u \/ In x ks.
Proof.
  induction ks as [|k ks IH]; intros u x; cbn [fold_left In]; [tauto |].
  rewrite IH. unfold add_unique.
  destruct (existsb (String.eqb k) u) eqn:E.
  - apply existsb_eqb_In in E. intuition (subst; auto).
  - rewrite in_app_iff. cbn [In]. intuition.
Qed.

Lemma add_unique_NoDup (ks : list string) : forall (u : list string),
  NoDup u -> NoDup (fold_left add_unique ks u).
Proof.
  induction ks as [|k ks IH]; intros u Hu; cbn [fold_left]; [assumption |].
  apply IH. unfold add_unique.
  destruct (existsb (String.eqb k) u) eqn:E; [assumption |].
  apply NoDup_app; [assumption | repeat constructor; intros [] |].
  intros x Hx [<- | []]. apply existsb_eqb_In in Hx. congruence.
Qed.

Lemma fast_unique_fold (gen : list (list string)) : forall (u : list string),
  (forall x, In x (fold_left (fun u ks => fold_left add_unique ks u) gen u)
             <-> In x u \/ exists ks, In ks gen /\ In x ks) /\
  (NoDup u -> NoDup (fold_left (fun u ks => fold_left add_unique ks u) gen u)).
Proof.
  induction gen as [|ks gen IH]; intros u; cbn [fold_left].
  - split; [| auto]. intros x. split; [auto | intros [H | [ks [[] _]]]; exact H].
  - destruct (IH (fold_left add_unique ks u)) as [IHin IHnd]. split.
    + intros x. rewrite IHin, add_unique_In. cbn [In]. split.
      * intros [[H | H] | [ks' [H1 H2]]]; eauto 6.
      * intros [H | [ks' [[<- | H1] H2]]]; eauto 6.
    + intros Hu. now apply IHnd, add_unique_NoDup.
Qed.

Lemma fast_unique_In (gen : list (list string)) (x : string) :
  In x (fast_unique_multiple_list_gen gen)
  <-> exists ks, In ks gen /\ In x ks.
Proof.
  unfold fast_unique_multiple_list_gen.
  change (fun uniques k =>
            if existsb (String.eqb k) uniques then uniques
            else (uniques ++ [k])%list) with add_unique.
  rewrite (proj1 (fast_unique_fold gen [])). cbn [In]. tauto.
Qed.

Lemma fast_unique_NoDup (gen : list (list string)) :
  NoDup (fast_unique_multiple_list_gen gen).
Proof.
  unfold fast_unique_multiple_list_gen.
  change (fun uniques k =>
            if existsb (String.eqb k) uniques then uniques
            else (uniques ++ [k])%list) with add_unique.
  apply (proj2 (fast_unique_fold gen [])). constructor.
Qed.

Lemma labels_DataFrame_of_dicts (ds : list (dict json)) :
  labels (DataFrame_of_dicts ds)
  = fast_unique_multiple_list_gen (map (@keys json) ds).
Proof.
  unfold labels, DataFrame_of_dicts. cbn [columns].
  rewrite map_map. cbn [fst]. apply map_id.
Qed.

Lemma dict_get_None {V} (k : string) (d : dict V) :
  dict_get k d = None <-> ~ In k (keys d).
Proof.
  unfold keys. induction d as [|[k' v] d IH]; cbn [dict_get map fst In].
  - tauto.
  - destruct (String.eqb k k') eqn:E.
    + apply String.eqb_eq in E. subst. split; [discriminate | tauto].
    + apply String.eqb_neq in E. rewrite IH. intuition congruence.
Qed.

(** ** Reading back what the writer wrote *)

Lemma append_empty (s : string) : s ++ "" = s.
Proof. induction s as [|c s IH]; simpl; [reflexivity | now rewrite IH]. Qed.

(** A character that neither asks for quotes nor is a carriage return is
    data to the reader in every state. *)
Lemma plain_char (c : ascii) :
  needs_quoting c = false -> Ascii.eqb c CR = false ->
  Ascii.eqb c delimiter = false /\ Ascii.eqb c quotechar = false /\
  is_newline c = false.
Proof.
  unfold needs_quoting, is_newline, lineterminator. cbn [str_has].
  intros H Hcr. rewrite Hcr.
  destruct (Ascii.eqb c delimiter), (Ascii.eqb c quotechar),
    (Ascii.eqb c LF); try discriminate. auto.
Qed.

Lemma read_plain (f : string) : forall fld fs rest,
  any_char needs_quoting f = false ->
  str_has CR f = false ->
  read_from (reader_at IN_FIELD fld fs) (f ++ rest)
  = read_from (reader_at IN_FIELD (fld ++ f) fs) rest.
Proof.
  induction f as [|c f IH]; intros fld fs rest Hq Hcr.
  - now rewrite append_empty.
  - cbn [any_char str_has] in Hq, Hcr.
    apply orb_false_elim in Hq as [Hc Hq].
    apply orb_false_elim in Hcr as [Hc' Hcr].
    rewrite Ascii.eqb_sym in Hc'.
    destruct (plain_char c Hc Hc') as (Hd & _ & Hn).
    cbn [append read_from]. unfold parse_process_char, reader_at at 1.
    cbn [state]. rewrite Hn, Hd. unfold add_char. cbn [field fields].
    fold (reader_at IN_FIELD (fld ++ String c "") fs).
    rewrite IH by assumption. now rewrite append_assoc.
Qed.

Lemma read_quoted_body (f : string) : forall fld fs rest,
  read_from (reader_at IN_QUOTED_FIELD fld fs)
            (join_append_data f ++ String quotechar rest)
  = read_from (reader_at QUOTE_IN_QUOTED_FIELD (fld ++ f) fs) rest.
Proof.
  induction f as [|c f IH]; intros fld fs rest.
  - rewrite append_empty. reflexivity.
  - cbn [join_append_data]. destruct (Ascii.eqb c quotechar) eqn:Hc.
    + cbn [append read_from]. unfold parse_process_char, reader_at at 1.
      cbn [state field fields].
      change (Ascii.eqb quotechar quotechar) with true. cbn [state].
      change (Ascii.eqb quotechar quotechar) with true.
      unfold add_char. cbn [field fields].
      fold (reader_at IN_QUOTED_FIELD (fld ++ String quotechar "") fs).
      rewrite IH, append_assoc. apply Ascii.eqb_eq in Hc. now subst.
    + cbn [append read_from]. unfold parse_process_char, reader_at at 1.
      cbn [state]. rewrite Hc. unfold add_char. cbn [field fields].
      fold (reader_at IN_QUOTED_FIELD (fld ++ String c "") fs).
      now rewrite IH, append_assoc.
Qed.

(** What the reader has after the text of one field: the field itself, in
    one of three states (still at the start when the field is empty). *)
Lemma read_field (st0 : reader_state) (f : string) (fs : list string)
    (rest : string) :
  st0 = START_FIELD \/ st0 = START_RECORD ->
  str_has CR f = false ->
  exists st,
    (st = st0 /\ f = "" \/ st = IN_FIELD \/ st = QUOTE_IN_QUOTED_FIELD) /\
    read_from (reader_at st0 "" fs) (join_append f ++ rest)
    = read_from (reader_at st f fs) rest.
Proof.
  intros Hst0 Hcr. unfold join_append.
  destruct (any_char needs_quoting f) eqn:Hq.
  - exists QUOTE_IN_QUOTED_FIELD. split; [auto |].
    cbn [append]. rewrite append_assoc. cbn [append read_from].
    replace (parse_process_char (reader_at st0 "" fs) quotechar)
      with (reader_at IN_QUOTED_FIELD "" fs, @None (list string))
      by (destruct Hst0; subst; reflexivity).
    now rewrite read_quoted_body.
  - destruct f as [|c f].
    + exists st0. split; [auto | reflexivity].
    + exists IN_FIELD. split; [auto |].
      cbn [any_char str_has] in Hq, Hcr.
      apply orb_false_elim in Hq as [Hc Hq].
      apply orb_false_elim in Hcr as [Hc' Hcr].
      rewrite Ascii.eqb_sym in Hc'.
      destruct (plain_char c Hc Hc') as (Hd & Hqc & Hn).
      cbn [append read_from].
      replace (parse_process_char (reader_at st0 "" fs) c)
        with (reader_at IN_FIELD (String c "") fs, @None (list string)).
      * now rewrite read_plain.
      * destruct Hst0; subst; unfold parse_process_char, reader_at;
          cbn [state]; unfold start_record, start_field;
          rewrite Hn, Hqc, Hd; reflexivity.
Qed.

Lemma after_delimiter (st : reader_state) (f : string) (fs : list string)
    (rest : string) :
  st <> IN_QUOTED_FIELD -> st <> EAT_CRNL ->
  read_from (reader_at st f fs) (String delimiter rest)
  = read_from (reader_at START_FIELD "" (fs ++ [f])) rest.
Proof. intros H1 H2. destruct st; try contradiction; reflexivity. Qed.

Lemma after_LF (st : reader_state) (f : string) (fs : list string)
    (rest : string) :
  st = START_FIELD \/ st = IN_FIELD \/ st = QUOTE_IN_QUOTED_FIELD ->
  read_from (reader_at st f fs) (String LF rest)
  = (fs ++ [f])%list :: read_from (new_record START_RECORD) rest.
Proof. intros [-> | [-> | ->]]; reflexivity. Qed.

Lemma read_fields (row : list string) : forall fs rest,
  row <> [] ->
  Forall no_CR row ->
  read_from (reader_at START_FIELD "" fs)
    (String.concat (String delimiter "") (map join_append row)
       ++ String LF rest)
  = (fs ++ row)%list :: read_from (new_record START_RECORD) rest.
Proof.
  induction row as [|f row IH]; intros fs rest Hne Hcr; [contradiction |].
  inversion Hcr as [|? ? Hf Hrow]; subst.
  destruct row as [|g row].
  - cbn [map String.concat].
    destruct (@read_field START_FIELD f fs (String LF rest) (or_introl eq_refl) Hf)
      as (st' & Hst' & Hread').
    rewrite Hread'. apply after_LF.
    destruct Hst' as [[-> _] | [-> | ->]]; auto.
  - cbn [map]. rewrite concat_cons_cons, append_assoc.
    destruct (@read_field START_FIELD f fs
                ((String delimiter ""
                  ++ String.concat (String delimiter "")
                       (join_append g :: map join_append row))
                 ++ String LF rest) (or_introl eq_refl) Hf)
      as (st' & Hst' & Hread').
    rewrite Hread'. cbn [append]. rewrite after_delimiter.
    + change (join_append g :: map join_append row)
        with (map join_append (g :: row)).
      rewrite (IH (fs ++ [f])%list rest); [| discriminate | assumption].
      now rewrite <- app_assoc.
    + destruct Hst' as [[-> _] | [-> | ->]]; discriminate.
    + destruct Hst' as [[-> _] | [-> | ->]]; discriminate.
Qed.

Lemma join_append_empty (f : string) : join_append f = "" -> f = "".
Proof.
  unfold join_append. destruct (any_char needs_quoting f); [discriminate |].
  auto.
Qed.

Lemma append_eq_empty (a b : string) : a ++ b = "" -> a = "" /\ b = "".
Proof. destruct a; [auto | discriminate]. Qed.

(** Only the row of one empty field is written as the empty record. *)
Lemma empty_record (row : list string) :
  row <> [] ->
  String.concat (String delimiter "") (map join_append row) = "" ->
  row = [""].
Proof.
  destruct row as [|f [|g row]]; [contradiction | |]; intros _ H.
  - cbn [map String.concat] in H. now rewrite (join_append_empty _ H).
  - cbn [map] in H. rewrite concat_cons_cons in H.
    apply append_eq_empty in H as [_ H]. discriminate.
Qed.

Lemma length_zero (s : string) : (String.length s =? 0)%nat = true -> s = "".
Proof. destruct s; [reflexivity | discriminate]. Qed.

Lemma read_row (row : list string) (rest : string) :
  Forall no_CR row ->
  read_from (new_record START_RECORD) (writerow row ++ rest)
  = row :: read_from (new_record START_RECORD) rest.
Proof.
  intros Hcr. unfold writerow.
  destruct row as [|f row]; [reflexivity |].
  set (rec := String.concat (String delimiter "")
                            (map join_append (f :: row))).
  destruct ((0 <? List.length (f :: row))%nat
            && (String.length rec =? 0)%nat) eqn:He.
  - apply andb_prop in He as [_ He]. apply length_zero in He.
    rewrite (@empty_record (f :: row)); [reflexivity | discriminate | exact He].
  - rewrite append_assoc.
    change (lineterminator ++ rest) with (String LF rest).
    inversion Hcr as [|? ? Hf Hrow]; subst.
    change (new_record START_RECORD) with (reader_at START_RECORD "" []) at 1.
    destruct row as [|g row].
    + subst rec. cbn [map String.concat] in *.
      destruct (@read_field START_RECORD f [] (String LF rest)
                  (or_intror eq_refl) Hf) as (st & Hst & Hread).
      rewrite Hread. apply after_LF.
      destruct Hst as [[-> ->] | [-> | ->]]; auto. discriminate.
    + subst rec. cbn [map]. rewrite concat_cons_cons, append_assoc.
      destruct (@read_field START_RECORD f []
                  ((String delimiter ""
                    ++ String.concat (String delimiter "")
                         (join_append g :: map join_append row))
                   ++ String LF rest) (or_intror eq_refl) Hf)
        as (st & Hst & Hread).
      rewrite Hread. cbn [append]. rewrite after_delimiter.
      * change (join_append g :: map join_append row)
          with (map join_append (g :: row)).
        rewrite read_fields; [reflexivity | discriminate | assumption].
      * destruct Hst as [[-> _] | [-> | ->]]; discriminate.
      * destruct Hst as [[-> _] | [-> | ->]]; discriminate.
Qed.

(** The reader gives back the rows the writer was given, as long as no
    field holds a carriage return. *)
Lemma reader_writerows (rows : list (list string)) :
  Forall (Forall no_CR) rows ->
  csv_reader (writerows rows) = rows.
Proof.
  unfold csv_reader. induction rows as [|row rows IH]; intros H.
  - reflexivity.
  - inversion H; subst. cbn [writerows]. rewrite read_row by assumption.
    now rewrite IH.
Qed.

(** ** Columns, rows and notices *)

Lemma labels_without_excluded (df : DataFrame) :
  labels (without_excluded df)
  = filter (fun c => negb (excluded c)) (labels df).
Proof.
  unfold labels, without_excluded. cbn [columns].
  apply (labels_filter (fun c => negb (excluded c))).
Qed.


Lemma filter_all {A} (p : A -> bool) (l : list A) :
  (forall x, In x l -> p x = true) -> filter p l = l.
Proof.
  induction l as [|x l IH]; intros H; [reflexivity |].
  cbn [filter]. rewrite (H x (or_introl eq_refl)). f_equal.
  apply IH. intros y Hy. apply H. now right.
Qed.



Lemma fetched_world name status_code envelope :
  str_truthy name = true ->
  status_with_body status_code = true ->
  fetched (world name (Response status_code (Json envelope))) envelope.
Proof. intros Hn He. repeat split; [exact Hn |]. now exists status_code. Qed.




(** C3, as the code has it.  For a valid envelope with records, the CSV is
    what the writer makes of the header row followed by one row per
    subsidiary, in the order of the list: row [i] holds the fields of
    subsidiary [i].  Where no field written holds a carriage return, the
    reader gets exactly these rows back: after the header as many rows as
    there are subsidiaries, row [i] that of subsidiary [i]. *)
Theorem C3_one_row_per_subsidiary_in_order :
  forall (str_value : list cell -> json -> string) (w : World)
         (envelope : json) (subs : list json)
         (parent_identifier : string) (log : list st_call),
    envelope_subsidiaries envelope = Some subs ->
    exists header rows,
      json_to_csv str_value envelope parent_identifier w log
      = (Return (Some (writerows (header :: rows)),
                 Some (export_filename parent_identifier w)), log) /\
      header = labels (export_frame subs) /\
      List.length rows = List.length subs /\
      rows = map (record_row str_value (export_frame subs)) subs /\
      (forall i, i < List.length subs ->
         nth i rows [] = record_row str_value (export_frame subs)
                           (nth i subs JNull)) /\
      (Forall (Forall no_CR) (header :: rows) ->
       csv_reader (writerows (header :: rows)) = header :: rows /\
       List.length (tl (csv_reader (writerows (header :: rows))))
       = List.length subs /\
       forall i, i < List.length subs ->
         nth i (tl (csv_reader (writerows (header :: rows)))) []
         = record_row str_value (export_frame subs) (nth i subs JNull)).
Proof.
  intros str_value w envelope subs pid log Hv.
  exists (labels (export_frame subs)),
    (map (record_row str_value (export_frame subs)) subs).
  assert (Hnth : forall i, i < List.length subs ->
            nth i (map (record_row str_value (export_frame subs)) subs) []
            = record_row str_value (export_frame subs) (nth i subs JNull)).
  { intros i Hi.
    change (@nil string)
      with (record_row str_value {| index := 0; columns := [] |} JNull
            ) at 1.
    rewrite (nth_indep _ _
               (record_row str_value (export_frame subs) JNull))
      by now rewrite length_map.
    apply (map_nth (record_row str_value (export_frame subs))). }
  split; [| split; [| split; [| split; [| split]]]].
  - rewrite (@json_to_csv_valid str_value envelope subs pid w log Hv).
    unfold to_csv. now rewrite to_csv_rows_export.
  - reflexivity.
  - apply length_map.
  - reflexivity.
  - exact Hnth.
  - intros Hcr. rewrite (reader_writerows Hcr). cbn [tl].
    split; [reflexivity |]. split; [apply length_map | exact Hnth].
Qed.

Lemma C3_witness :
  exists header rows,
    json_to_csv str_value_unused scenario_1 "Acme"
      (world "Acme" (Response 200 (Json scenario_1))) []
    = (Return (Some (writerows (header :: rows)),
               Some (export_filename "Acme"
                       (world "Acme" (Response 200 (Json scenario_1))))),
       []) /\
    header = ["name"] /\
    rows = [["Acme UK"]; ["Acme FR"]] /\
    Forall (Forall no_CR) (header :: rows) /\
    csv_reader (writerows (header :: rows)) = header :: rows /\
    List.length (tl (csv_reader (writerows (header :: rows)))) = 2.
Proof.
  destruct (@C3_one_row_per_subsidiary_in_order str_value_unused
              (world "Acme" (Response 200 (Json scenario_1))) scenario_1
              [ JObj [("id", JStr "1"); ("name", JStr "Acme UK")];
                JObj [("id", JStr "2"); ("name", JStr "Acme FR")] ]
              "Acme" [] eq_refl)
    as (header & rows & Hrun & Hheader & Hlen & Hrows & Hnth & Hread).
  exists header, rows.
  assert (Hcr : Forall (Forall no_CR) (header :: rows))
    by (rewrite Hheader, Hrows; repeat constructor).
  destruct (Hread Hcr) as (Hback & Hcount & _).
  split; [exact Hrun |]. split; [exact Hheader |]. split; [exact Hrows |].
  split; [exact Hcr |]. split; [exact Hback | exact Hcount].
Defined.

(** C3 as stated fails for a field with a carriage return.  The writer ends
    its lines with a line feed and leaves a carriage return unquoted; the
    reader takes it for the end of a record.  The envelope [name_with_CR]
    is valid and has one subsidiary, and its CSV has two rows after the
    header. *)
Lemma C3_counterexample :
  envelope_subsidiaries name_with_CR
  = Some [JObj [("name", JStr (String "a" (String CR "b")))]] /\
  exists csv_data,
    json_to_csv str_value_unused name_with_CR "Acme"
      (world "Acme" (Failed Timeout)) []
    = (Return (Some csv_data,
               Some "Acme_subsidiaries_20250101_120000.csv"), []) /\
    csv_data = String.concat ""
                 ["name"; lineterminator;
                  String "a" (String CR "b"); lineterminator] /\
    csv_reader csv_data = [["name"]; ["a"]; ["b"]] /\
    List.length (tl (csv_reader csv_data)) = 2.
Proof.
  split; [reflexivity |]. eexists. repeat split; reflexivity.
Qed.

(** Scenario 1: the CSV has the header [name] and the two rows, in order. *)
Example scenario_1_csv :
  json_to_csv str_value_unused scenario_1 "Acme"
    (world "Acme" (Response 200 (Json scenario_1))) []
  = (Return (Some (writerows [["name"]; ["Acme UK"]; ["Acme FR"]]),
             Some "Acme_subsidiaries_20250101_120000.csv"), []).
Proof. reflexivity. Qed.

(** C5. For an envelope with status ["success"] and an empty list of
    subsidiaries, [json_to_csv] returns no CSV and shows the warning that
    nothing was found; [main] stops there: no success banner, no download
    button, no preview. *)
Theorem C5_empty_list_gives_notice_only :
  forall (str_value : list cell -> json -> string) (w : World)
         (d : dict json) (parent_identifier : string) (log : list st_call),
    dict_get "status" d = Some (JStr "success") ->
    dict_get "subsidiaries" d = Some (JArr []) ->
    json_to_csv str_value (JObj d) parent_identifier w log
    = (Return (None, None),
       (log ++ [StWarning
                  (Literal "No subsidiaries found for the given criteria")])%list)
    /\
    (fetched w (JObj d) ->
     main str_value w []
     = (Return tt,
        (page_calls
           ++ [StWarning
                 (Literal "No subsidiaries found for the given criteria")])%list)).
Proof.
  intros str_value w d pid log Hst Hsub.
  assert (Hs : status_not_success (JObj d) = false)
    by (unfold status_not_success; now rewrite Hst).
  assert (Hg : get (JObj d) "subsidiaries" (JArr []) = Return (JArr []))
    by (unfold get; now rewrite Hsub).
  split.
  - pose proof (json_to_csv_paths str_value (JObj d) pid w log) as Hp.
    inversion Hp as [ m Hs' Hr | s Hs' Hg' Hts Hr | s e Hs' Hg' Hts Hn' Hr
                    | s df Hs' Hg' Hts Hn' Hr | s Hs' Hg' Hts Hn' Hr ];
      try congruence;
      rewrite Hg in Hg'; inversion Hg'; subst s; try discriminate.
  - intros Hf. pose proof (main_paths str_value w) as Hp.
    inversion Hp as [ Hb | Hb Hnm | e Hff | data Hf' Htd | data m Hf' Htd Hs'
                    | data s Hf' Hs' Hg' Hts | data s e Hf' Hs' Hg' Hts Hn'
                    | data s df count Hf' Hs' Hg' Hts Hn' Hc'
                    | data s Hf' Hs' Hg' Hts Hn'
                    | e_raised Hfr ];
      try (exfalso;
           solve [ eapply fetch_raised_not_fetched; eassumption
                 | eapply fetch_raised_not_failed; eassumption ]);
      try (destruct Hf as (Hb' & Hnm' & _); congruence);
      try (exfalso; eapply fetched_not_failed; eassumption);
      pose proof (fetched_same Hf' Hf) as ->;
      try congruence;
      try (rewrite Hg in Hg'; inversion Hg'; subst s; discriminate).
    + destruct (status_success_dict _ Hs) as (d' & _ & Htd'). congruence.
    + reflexivity.
Qed.

Lemma C5_witness :
  json_to_csv str_value_unused (JObj scenario_2) "Acme"
    (world "Acme" (Response 200 (Json (JObj scenario_2)))) []
  = (Return (None, None),
     ([] ++ [StWarning
               (Literal "No subsidiaries found for the given criteria")])%list)
  /\
  (fetched (world "Acme" (Response 200 (Json (JObj scenario_2))))
     (JObj scenario_2) ->
   main str_value_unused
     (world "Acme" (Response 200 (Json (JObj scenario_2)))) []
   = (Return tt,
      (page_calls
         ++ [StWarning
               (Literal "No subsidiaries found for the given criteria")])%list)).
Proof.
  exact (@C5_empty_list_gives_notice_only str_value_unused
           (world "Acme" (Response 200 (Json (JObj scenario_2))))
           scenario_2 "Acme" [] eq_refl eq_refl).
Defined.

Lemma filter_idempotent {A} (p : A -> bool) (l : list A) :
  filter p (filter p l) = filter p l.
Proof.
  apply filter_all. intros x Hx. now apply filter_In in Hx.
Qed.

Lemma without_excluded_idempotent (df : DataFrame) :
  without_excluded (without_excluded df) = without_excluded df.
Proof.
  unfold without_excluded. cbn [index columns].
  now rewrite filter_idempotent.
Qed.

(** C9. Dropping the excluded columns of a frame from which they were
    dropped gives the same frame again, for the drop of [json_to_csv] and
    for the one of [main]. *)
Theorem C9_filter_idempotent :
  forall df : DataFrame,
    exists once,
      json_to_csv_drop df = Return once /\
      json_to_csv_drop once = Return once /\
      main_drop df = Return once /\
      main_drop once = Return once.
Proof.
  intros df. exists (without_excluded df).
  assert (Hagain : json_to_csv_drop (without_excluded df)
                   = Return (without_excluded df))
    by now rewrite json_to_csv_drop_eq, without_excluded_idempotent.
  split; [apply json_to_csv_drop_eq |].
  split; [exact Hagain |].
  split; [exact (eq_trans (main_drop_eq df) (json_to_csv_drop_eq df)) |].
  exact (eq_trans (main_drop_eq _) Hagain).
Qed.



(** ** Failures *)









(** ** Columns of nested records *)

Lemma labels_of_records (subs : list json) (c : string) :
  In c (labels (DataFrame_of_dicts (map flat_record subs)))
  <-> exists s, In s subs /\ In c (keys (flat_record s)).
Proof.
  rewrite labels_DataFrame_of_dicts, fast_unique_In. split.
  - intros (ks & Hks & Hc). apply in_map_iff in Hks as (r & <- & Hr).
    apply in_map_iff in Hr as (s & <- & Hs). eauto.
  - intros (s & Hs & Hc). exists (keys (flat_record s)). split; [| exact Hc].
    apply in_map. now apply in_map.
Qed.

Lemma path_key_top (k : string) (v : json) (path : list string) :
  (isinstance_dict v = true -> k <> "") ->
  (isinstance_dict v = false -> path = []) ->
  path_key "" (k :: path) = dotted_path (k :: path).
Proof.
  intros Hk Hp. rewrite path_key_under.
  destruct (isinstance_dict v).
  - apply path_key_dotted, str_truthy_neq, Hk. reflexivity.
  - rewrite (Hp eq_refl). reflexivity.
Qed.

(** C7, as the code has it.  For a list of records, the frame has one column
    per key of the flattened records, each once; a value that is not a dict,
    at the end of a path of keys through nested dicts, has the column named
    by the keys joined with dots, provided the record's own key of a nested
    dict is not empty; no other columns arise; and where a record has no
    value for a column the cell is a gap, written as the empty text. *)
Theorem C7_dotted_columns_union_and_gaps :
  forall subs : list json,
    subs <> [] ->
    forallb isinstance_dict subs = true ->
    exists df,
      json_normalize (JArr subs) = Return df /\
      NoDup (labels df) /\
      (forall c,
          In c (labels df)
          <-> exists s, In s subs /\ In c (keys (flat_record s))) /\
      (forall d k v path x,
          In (JObj d) subs -> In (k, v) d ->
          leaf_at path v x -> isinstance_dict x = false ->
          (isinstance_dict v = true -> k <> "") ->
          In (dotted_path (k :: path)) (labels df)) /\
      ((forall d k v,
           In (JObj d) subs -> In (k, v) d ->
           isinstance_dict v = true -> k <> "") ->
       forall c,
         In c (labels df) ->
         exists d k v path x,
           In (JObj d) subs /\ In (k, v) d /\ leaf_at path v x /\
           isinstance_dict x = false /\ c = dotted_path (k :: path)) /\
      index df = List.length subs /\
      (forall col,
          In col (columns df) ->
          snd col = map (fun s => dict_get (fst col) (flat_record s)) subs) /\
      (forall str_value s col,
          In s subs -> In col (columns df) ->
          ~ In (fst col) (keys (flat_record s)) ->
          dict_get (fst col) (flat_record s) = None /\
          format_cell str_value (snd col)
            (dict_get (fst col) (flat_record s)) = "").
Proof.
  intros subs Hne Hall.
  exists (DataFrame_of_dicts (map flat_record subs)).
  split; [now apply json_normalize_records |].
  split; [rewrite labels_DataFrame_of_dicts; apply fast_unique_NoDup |].
  split; [apply labels_of_records |].
  split; [| split; [| split; [| split]]].
  - intros d k v path x Hd Hkv Hleaf Hx Hk.
    apply labels_of_records. exists (JObj d). split; [exact Hd |].
    cbn [flat_record]. now apply flat_record_has_leaf with v x.
  - intros Hkeys c Hc. apply labels_of_records in Hc as (s & Hs & Hc).
    assert (Hd : exists d, s = JObj d).
    { rewrite forallb_forall in Hall. specialize (Hall s Hs).
      destruct s; try discriminate. eauto. }
    destruct Hd as [d ->]. cbn [flat_record] in Hc.
    apply flat_record_key_is_leaf in Hc
      as (k & v & path & x & Hkv & Hleaf & Hx & ->).
    exists d, k, v, path, x. repeat split; try assumption.
    apply path_key_top with v.
    + now apply Hkeys with d.
    + intros Hv. now destruct (leaf_at_scalar Hv Hleaf).
  - unfold DataFrame_of_dicts. cbn [index]. now rewrite length_map.
  - intros col Hcol. rewrite (frame_column _ _ Hcol). now rewrite map_map.
  - intros str_value s col Hs Hcol Hmiss.
    apply dict_get_None in Hmiss. rewrite Hmiss. split; reflexivity.
Qed.

(** Scenario 4: the columns are [name] and [address.city]. *)
Example scenario_4_columns :
  json_normalize (JArr scenario_4)
  = Return {| index := 1;
              columns := [ ("name", [Some (JStr "Acme DE")]);
                           ("address.city", [Some (JStr "Berlin")]) ] |}.
Proof. reflexivity. Qed.

Lemma C7_witness :
  exists df,
    json_normalize (JArr scenario_4) = Return df /\
    In (dotted_path ["address"; "city"]) (labels df).
Proof.
  destruct (@C7_dotted_columns_union_and_gaps scenario_4)
    as (df & Hn & _ & _ & Hleaf & _); [discriminate | reflexivity |].
  exists df. split; [exact Hn |].
  apply (Hleaf [ ("name", JStr "Acme DE");
                 ("address", JObj [("city", JStr "Berlin")]) ]
               "address" (JObj [("city", JStr "Berlin")])
               ["city"] (JStr "Berlin")).
  - left. reflexivity.
  - right. left. reflexivity.
  - apply leaf_under with (JStr "Berlin"); [left; reflexivity | constructor].
  - reflexivity.
  - discriminate.
Defined.

(** C7 as stated fails for a nested object under the empty key: the path
    from the record to [Berlin] is the empty key and then [city], whose
    dotted name is [.city], and the column is named [city]. *)
Lemma C7_counterexample :
  leaf_at ["city"] (JObj [("city", JStr "Berlin")]) (JStr "Berlin") /\
  dotted_path [""; "city"] = ".city" /\
  json_normalize (JArr [JObj [("", JObj [("city", JStr "Berlin")])]])
  = Return {| index := 1;
              columns := [("city", [Some (JStr "Berlin")])] |} /\
  ~ In ".city" ["city"].
Proof.
  split; [apply leaf_under with (JStr "Berlin");
          [left; reflexivity | constructor] |].
  split; [reflexivity |]. split; [reflexivity |].
  intros [H | []]. discriminate.
Qed.

(** ** The CSV read back *)

Lemma filter_none {A} (p : A -> bool) (l : list A) :
  (forall x, In x l -> p x = false) -> filter p l = [].
Proof.
  induction l as [|x l IH]; intros H; [reflexivity |].
  cbn [filter]. rewrite (H x (or_introl eq_refl)).
  apply IH. intros y Hy. apply H. now right.
Qed.

(** A record without nested dicts is its own flattening. *)
Lemma flat_without_dicts (d : dict json) :
  (forall kv, In kv d -> isinstance_dict (snd kv) = false) ->
  _normalise_json_ordered d = d.
Proof.
  intros H. unfold _normalise_json_ordered.
  rewrite filter_all by (intros kv Hkv; now rewrite (H kv Hkv)).
  rewrite filter_none by exact H. reflexivity.
Qed.

Lemma dict_get_In {V} (k : string) (v : V) (d : dict V) :
  dict_get k d = Some v -> In (k, v) d.
Proof.
  induction d as [|[k' v'] d IH]; cbn [dict_get]; [discriminate |].
  destruct (String.eqb k k') eqn:E.
  - apply String.eqb_eq in E. subst. intros H. inversion H. now left.
  - intros H. right. now apply IH.
Qed.

Lemma string_fields_flat (s : json) :
  string_fields s = true ->
  exists d, s = JObj d /\ flat_record s = d /\
            forall k v, In (k, v) d ->
                        if excluded k then isinstance_dict v = false
                        else no_CR k /\ exists t, v = JStr t /\ no_CR t.
Proof.
  destruct s as [ | | | | | | d]; try discriminate. cbn [string_fields].
  intros H. rewrite forallb_forall in H.
  assert (Hf : forall k v, In (k, v) d ->
                 if excluded k then isinstance_dict v = false
                 else no_CR k /\ exists t, v = JStr t /\ no_CR t).
  { intros k v Hkv. specialize (H _ Hkv). cbn [fst snd] in H.
    destruct (excluded k); [now apply negb_true_iff |].
    apply andb_prop in H as [Hk Hv]. unfold plain_text in Hk.
    apply negb_true_iff in Hk. split; [exact Hk |].
    destruct v; try discriminate. eexists. split; [reflexivity |].
    now apply negb_true_iff in Hv. }
  exists d. split; [reflexivity |]. split; [| exact Hf].
  cbn [flat_record]. apply flat_without_dicts. intros [k v] Hkv.
  specialize (Hf _ _ Hkv). cbn [snd]. destruct (excluded k); [exact Hf |].
  now destruct Hf as (_ & t & -> & _).
Qed.

Lemma In_columns_without_excluded (df : DataFrame) (c : string * list cell) :
  In c (columns (without_excluded df)) ->
  In c (columns df) /\ excluded (fst c) = false.
Proof.
  unfold without_excluded. cbn [columns]. intros H.
  apply filter_In in H as [Hin Hex]. split; [exact Hin |].
  now apply negb_true_iff.
Qed.

(** Under the columns of the export, a record of strings gives its own
    texts. *)
Lemma record_row_strings str_value (subs : list json) (s : json) :
  string_fields s = true ->
  record_row str_value (export_frame subs) s
  = map (fun k => source_text k s) (labels (export_frame subs)).
Proof.
  intros Hs. destruct (string_fields_flat _ Hs) as (d & -> & Hflat & Hf).
  unfold record_row, labels. rewrite map_map. apply map_ext_in.
  intros c Hc. apply In_columns_without_excluded in Hc as [_ Hex].
  rewrite Hflat. cbn [source_text].
  destruct (dict_get (fst c) d) as [v|] eqn:Hg; [| reflexivity].
  specialize (Hf _ _ (dict_get_In _ _ Hg)). rewrite Hex in Hf.
  destruct Hf as (_ & t & -> & _). reflexivity.
Qed.

Lemma source_text_no_CR (k : string) (s : json) :
  string_fields s = true -> excluded k = false -> no_CR (source_text k s).
Proof.
  intros Hs Hex. destruct (string_fields_flat _ Hs) as (d & -> & _ & Hf).
  cbn [source_text].
  destruct (dict_get k d) as [v|] eqn:Hg; [| reflexivity].
  specialize (Hf _ _ (dict_get_In _ _ Hg)). rewrite Hex in Hf.
  now destruct Hf as (_ & t & -> & Ht).
Qed.

(** The header of the export: the keys of the records outside the exclusion
    list. *)
Lemma export_labels (subs : list json) (k : string) :
  forallb string_fields subs = true ->
  (In k (labels (export_frame subs))
   <-> excluded k = false /\ exists d, In (JObj d) subs /\ In k (keys d)).
Proof.
  intros Hall. rewrite forallb_forall in Hall.
  unfold export_frame. rewrite labels_without_excluded, filter_In.
  rewrite labels_of_records, negb_true_iff. split.
  - intros [(s & Hs & Hk) Hex]. split; [exact Hex |].
    destruct (string_fields_flat _ (Hall s Hs)) as (d & -> & Hflat & _).
    rewrite Hflat in Hk. eauto.
  - intros [Hex (d & Hd & Hk)]. split; [| exact Hex].
    exists (JObj d). split; [exact Hd |].
    destruct (string_fields_flat _ (Hall _ Hd)) as (d' & Heq & Hflat & _).
    injection Heq as Hdd. rewrite <- Hdd in Hflat. rewrite Hflat. exact Hk.
Qed.

Lemma key_no_CR (subs : list json) (k : string) :
  forallb string_fields subs = true ->
  In k (labels (export_frame subs)) -> no_CR k.
Proof.
  intros Hall Hk. apply (export_labels _ _ Hall) in Hk
    as (Hex & d & Hd & Hkd).
  rewrite forallb_forall in Hall.
  destruct (string_fields_flat _ (Hall _ Hd)) as (d' & Heq & _ & Hf).
  injection Heq as Hdd. unfold keys in Hkd.
  apply in_map_iff in Hkd as ([k' v] & <- & Hkv). rewrite Hdd in Hkv.
  specialize (Hf _ _ Hkv). cbn [fst] in Hex. rewrite Hex in Hf.
  now destruct Hf.
Qed.

(** C8, as the code has it.  For a valid envelope whose records hold, outside
    the exclusion list, only strings, with no carriage return in key or
    value, reading the CSV back gives the keys outside the exclusion list as
    header and then, record by record and in order, the text of each field
    under its key, and the empty text where the record has no such key. *)
Theorem C8_strings_read_back :
  forall (str_value : list cell -> json -> string) (w : World)
         (envelope : json) (subs : list json)
         (parent_identifier : string) (log : list st_call),
    envelope_subsidiaries envelope = Some subs ->
    forallb string_fields subs = true ->
    exists csv_data header,
      json_to_csv str_value envelope parent_identifier w log
      = (Return (Some csv_data, Some (export_filename parent_identifier w)),
         log) /\
      NoDup header /\
      (forall k,
          In k header
          <-> excluded k = false /\
              exists d, In (JObj d) subs /\ In k (keys d)) /\
      csv_reader csv_data
      = header :: map (fun s => map (fun k => source_text k s) header) subs.
Proof.
  intros str_value w envelope subs pid log Hv Hall.
  exists (to_csv str_value (export_frame subs)), (labels (export_frame subs)).
  split; [now apply json_to_csv_valid |].
  split; [| split].
  - unfold export_frame. rewrite labels_without_excluded.
    apply NoDup_filter. rewrite labels_DataFrame_of_dicts.
    apply fast_unique_NoDup.
  - intros k. now apply export_labels.
  - unfold to_csv. rewrite to_csv_rows_export.
    assert (Hrows : map (record_row str_value (export_frame subs)) subs
                    = map (fun s => map (fun k => source_text k s)
                                        (labels (export_frame subs))) subs).
    { apply map_ext_in. intros s Hs. apply record_row_strings.
      rewrite forallb_forall in Hall. now apply Hall. }
    rewrite Hrows. apply reader_writerows. constructor.
    + apply Forall_forall. intros k Hk. now apply key_no_CR with subs.
    + apply Forall_forall. intros r Hr.
      apply in_map_iff in Hr as (s & <- & Hs).
      apply Forall_forall. intros f Hf.
      apply in_map_iff in Hf as (k & <- & Hk).
      apply source_text_no_CR.
      * rewrite forallb_forall in Hall. now apply Hall.
      * now apply (export_labels _ _ Hall) in Hk as [Hex _].
Qed.

Lemma C8_witness :
  exists csv_data header,
    json_to_csv str_value_unused scenario_1 "Acme"
      (world "Acme" (Response 200 (Json scenario_1))) []
    = (Return (Some csv_data,
               Some (export_filename "Acme"
                       (world "Acme" (Response 200 (Json scenario_1))))),
       []) /\
    NoDup header /\
    (forall k,
        In k header
        <-> excluded k = false /\
            exists d,
              In (JObj d)
                [ JObj [("id", JStr "1"); ("name", JStr "Acme UK")];
                  JObj [("id", JStr "2"); ("name", JStr "Acme FR")] ] /\
              In k (keys d)) /\
    csv_reader csv_data
    = header
      :: map (fun s => map (fun k => source_text k s) header)
           [ JObj [("id", JStr "1"); ("name", JStr "Acme UK")];
             JObj [("id", JStr "2"); ("name", JStr "Acme FR")] ].
Proof.
  apply (@C8_strings_read_back str_value_unused
           (world "Acme" (Response 200 (Json scenario_1))) scenario_1
           [ JObj [("id", JStr "1"); ("name", JStr "Acme UK")];
             JObj [("id", JStr "2"); ("name", JStr "Acme FR")] ]
           "Acme" []); reflexivity.
Defined.

(** Scenario 1 read back: the header [name] and the two names. *)
Example scenario_1_read_back :
  csv_reader (writerows [["name"]; ["Acme UK"]; ["Acme FR"]])
  = [["name"]; ["Acme UK"]; ["Acme FR"]].
Proof. reflexivity. Qed.

(** C8 as stated fails.  The envelopes [name_null] and [name_empty], whose
    one field is a scalar, give the same CSV, so that nothing that reads the
    CSV can give back both [null] and the empty string, whatever [to_csv]
    writes for numbers.  The same holds with strings only: a nested object
    under an excluded key is flattened into columns that stay, and
    [nested_id] and [dotted_id] give the same CSV.  And a name with a
    carriage return is read back as two records. *)
Lemma C8_counterexample :
  (~ exists (str_value : list cell -> json -> string)
            (parse : string -> list (dict json)),
       forall envelope subs parent_identifier w log csv_data filename,
         envelope_subsidiaries envelope = Some subs ->
         forallb scalar_fields subs = true ->
         json_to_csv str_value envelope parent_identifier w log
         = (Return (Some csv_data, Some filename), log) ->
         parse csv_data = source_values subs) /\
  (~ exists (str_value : list cell -> json -> string)
            (parse : string -> list (dict json)),
       forall envelope subs parent_identifier w log csv_data filename,
         envelope_subsidiaries envelope = Some subs ->
         forallb strings_outside_exclusion subs = true ->
         json_to_csv str_value envelope parent_identifier w log
         = (Return (Some csv_data, Some filename), log) ->
         parse csv_data = source_values subs) /\
  (exists csv_data,
      json_to_csv str_value_unused name_with_CR "Acme"
        (world "Acme" (Failed Timeout)) []
      = (Return (Some csv_data,
                 Some "Acme_subsidiaries_20250101_120000.csv"), []) /\
      csv_reader csv_data = [["name"]; ["a"]; ["b"]]).
Proof.
  pose (w := world "Acme" (Failed Timeout)).
  split; [| split].
  - intros (str_value & parse & H).
    assert (Hnull := H name_null [JObj [("name", JNull)]] "Acme" w []
                       _ _ eq_refl eq_refl
                       (@json_to_csv_valid str_value name_null _ "Acme" w []
                          eq_refl)).
    assert (Hempty := H name_empty [JObj [("name", JStr "")]] "Acme" w []
                        _ _ eq_refl eq_refl
                        (@json_to_csv_valid str_value name_empty _ "Acme" w
                           [] eq_refl)).
    change (to_csv str_value (export_frame [JObj [("name", JStr "")]]))
      with (to_csv str_value (export_frame [JObj [("name", JNull)]]))
      in Hempty.
    rewrite Hnull in Hempty. discriminate.
  - intros (str_value & parse & H).
    assert (Hnested := H nested_id [JObj [("id", JObj [("x", JStr "5")])]]
                         "Acme" w [] _ _ eq_refl eq_refl
                         (@json_to_csv_valid str_value nested_id _ "Acme" w
                            [] eq_refl)).
    assert (Hdotted := H dotted_id [JObj [("id.x", JStr "5")]] "Acme" w []
                         _ _ eq_refl eq_refl
                         (@json_to_csv_valid str_value dotted_id _ "Acme" w
                            [] eq_refl)).
    change (to_csv str_value (export_frame [JObj [("id.x", JStr "5")]]))
      with (to_csv str_value
              (export_frame [JObj [("id", JObj [("x", JStr "5")])]]))
      in Hdotted.
    rewrite Hnested in Hdotted. discriminate.
  - eexists. split; reflexivity.
Qed.

(** ** Further properties of the code *)

(** The result of [json_to_csv] on the path that ends in a CSV. *)
Lemma json_to_csv_csv str_value api_response parent_identifier w log
    subsidiaries df :
  status_not_success api_response = false ->
  get api_response "subsidiaries" (JArr []) = Return subsidiaries ->
  truthy subsidiaries = true ->
  json_normalize subsidiaries = Return df ->
  json_to_csv str_value api_response parent_identifier w log
  = (Return (Some (to_csv str_value (without_excluded df)),
             Some (export_filename parent_identifier w)), log).
Proof.
  intros Hs Hg Ht Hn.
  pose proof (json_to_csv_paths str_value api_response parent_identifier w log)
    as Hp.
  inversion Hp as [ m Hs' Hr | s Hs' Hg' Hts Hr | s e Hs' Hg' Hts Hn' Hr
                  | s df' Hs' Hg' Hts Hn' Hr | s Hs' Hg' Hts Hn' Hr ];
    try congruence;
    rewrite Hg in Hg'; inversion Hg'; subst s; try congruence;
    rewrite Hn in Hn'; inversion Hn'; subst df'; reflexivity.
Qed.

Lemma json_to_csv_warning str_value api_response parent_identifier w log
    subsidiaries :
  status_not_success api_response = false ->
  get api_response "subsidiaries" (JArr []) = Return subsidiaries ->
  truthy subsidiaries = false ->
  json_to_csv str_value api_response parent_identifier w log
  = (Return (None, None),
     (log ++ [StWarning
                (Literal "No subsidiaries found for the given criteria")])%list).
Proof.
  intros Hs Hg Ht.
  pose proof (json_to_csv_paths str_value api_response parent_identifier w log)
    as Hp.
  inversion Hp as [ m Hs' Hr | s Hs' Hg' Hts Hr | s e Hs' Hg' Hts Hn' Hr
                  | s df' Hs' Hg' Hts Hn' Hr | s Hs' Hg' Hts Hn' Hr ];
    try congruence;
    rewrite Hg in Hg'; inversion Hg'; subst s; congruence.
Qed.

Lemma json_to_csv_raised str_value api_response parent_identifier w log
    subsidiaries e :
  status_not_success api_response = false ->
  get api_response "subsidiaries" (JArr []) = Return subsidiaries ->
  truthy subsidiaries = true ->
  json_normalize subsidiaries = Raise e ->
  json_to_csv str_value api_response parent_identifier w log
  = (Return (None, None),
     (log ++ [StError (Error_converting_data e)])%list).
Proof.
  intros Hs Hg Ht Hn.
  pose proof (json_to_csv_paths str_value api_response parent_identifier w log)
    as Hp.
  inversion Hp as [ m Hs' Hr | s Hs' Hg' Hts Hr | s e' Hs' Hg' Hts Hn' Hr
                  | s df' Hs' Hg' Hts Hn' Hr | s Hs' Hg' Hts Hn' Hr ];
    try congruence;
    rewrite Hg in Hg'; inversion Hg'; subst s; try congruence;
    rewrite Hn in Hn'; inversion Hn'; subst e'; reflexivity.
Qed.

Lemma status_success (d : dict json) :
  dict_get "status" d = Some (JStr "success") ->
  status_not_success (JObj d) = false.
Proof. intros H. unfold status_not_success. now rewrite H. Qed.

(** X1. Without the button pressed, or with no name typed, [main] fetches
    nothing: the run is the same whatever the network and the clock are,
    the page calls alone, with the warning to enter a name when the button
    was pressed. *)
Theorem X1_no_fetch_without_button_and_name :
  forall (str_value : list cell -> json -> string) (w w' : World),
    button w = button w' ->
    text_input w = text_input w' ->
    button w = false \/ str_truthy (text_input w) = false ->
    main str_value w [] = main str_value w' [] /\
    main str_value w []
    = (Return tt,
       if button w
       then (input_calls
               ++ [StWarning (Literal "Please enter a Parent Name")])%list
       else input_calls).
Proof.
  assert (Hrun : forall str_value w,
             button w = false \/ str_truthy (text_input w) = false ->
             main str_value w []
             = (Return tt,
                if button w
                then (input_calls
                        ++ [StWarning
                              (Literal "Please enter a Parent Name")])%list
                else input_calls)).
  { intros str_value w Hoff. pose proof (main_paths str_value w) as Hp.
    inversion Hp as [ Hb | Hb Hnm | e Hff | data Hf Htd | data m Hf Htd Hs
                    | data s Hf Hs Hg Hts | data s e Hf Hs Hg Hts Hn
                    | data s df count Hf Hs Hg Hts Hn Hc
                    | data s Hf Hs Hg Hts Hn
                    | e_raised Hfr ];
      try (rewrite Hb; reflexivity);
      exfalso;
      try (destruct Hff as (Hb & Hnm & _));
      try (destruct Hf as (Hb & Hnm & _));
      try (destruct Hfr as (Hb & Hnm & _));
      destruct Hoff; congruence. }
  intros str_value w w' Hb Hn Hoff. split; [| now apply Hrun].
  rewrite (Hrun str_value w Hoff).
  rewrite (Hrun str_value w') by (rewrite <- Hb, <- Hn; exact Hoff).
  now rewrite Hb.
Qed.

Lemma X1_witness :
  main str_value_unused (world "" (Response 200 (Json scenario_1))) []
  = main str_value_unused (world "" (Failed Timeout)) [] /\
  main str_value_unused (world "" (Response 200 (Json scenario_1))) []
  = (Return tt,
     if button (world "" (Response 200 (Json scenario_1)))
     then (input_calls
             ++ [StWarning (Literal "Please enter a Parent Name")])%list
     else input_calls).
Proof.
  apply (@X1_no_fetch_without_button_and_name str_value_unused
           (world "" (Response 200 (Json scenario_1)))
           (world "" (Failed Timeout))).
  - reflexivity.
  - reflexivity.
  - right. reflexivity.
Defined.

Lemma main_log_prefix str_value w :
  exists tail, snd (main str_value w []) = (input_calls ++ tail)%list.
Proof.
  pose proof (main_paths str_value w) as Hp.
  inversion Hp as [ Hb | Hb Hnm | e Hff | data Hf Htd | data m Hf Htd Hs
                  | data s Hf Hs Hg Hts | data s e Hf Hs Hg Hts Hn
                  | data s df count Hf Hs Hg Hts Hn Hc
                  | data s Hf Hs Hg Hts Hn
                  | e_raised Hfr ]; cbn [snd];
    eexists; unfold page_calls; rewrite <- ?app_assoc;
    first [reflexivity | symmetry; apply app_nil_r].
Qed.

Lemma no_config_in_main (l : list st_call) :
  existsb is_set_page_config (map InMain l) = false.
Proof. induction l as [|c l IH]; [reflexivity | exact IH]. Qed.

(** X2. Run as a script, the module calls [st.set_page_config] first and
    once, and then, whatever the user and the network do, makes the same
    five calls: the title, the prompt, the text input, the spacer and the
    button. *)
Theorem X2_page_is_configured_first_and_once :
  forall (str_value : list cell -> json -> string) (w : World),
    exists tail,
      snd (run_as_main str_value w)
      = (SetPageConfig "Subsidiary Data Extractor" "📊" "wide"
         :: map InMain input_calls ++ map InMain tail)%list /\
      existsb is_set_page_config
        (map InMain input_calls ++ map InMain tail) = false.
Proof.
  intros str_value w. destruct (main_log_prefix str_value w) as [tail Ht].
  exists tail. unfold run_as_main. cbn [snd]. rewrite Ht, map_app.
  split; [reflexivity |].
  rewrite <- map_app. apply no_config_in_main.
Qed.

Lemma rows_as_dicts_no_list (l : list json) :
  forallb (fun x => negb (isinstance_list x)) l = true ->
  exists ds, rows_as_dicts (map _simple_json_normalize l) = Some ds.
Proof.
  induction l as [|x l IH]; [now exists [] |].
  cbn [forallb map]. intros H. apply andb_prop in H as [Hx Hl].
  destruct (IH Hl) as [ds Hds].
  destruct x; try discriminate;
    cbn [_simple_json_normalize rows_as_dicts]; rewrite Hds; eauto.
Qed.

Lemma json_normalize_no_list (api_response subsidiaries : json) :
  holds_no_list api_response = true ->
  get api_response "subsidiaries" (JArr []) = Return subsidiaries ->
  json_normalize subsidiaries <> Unmodelled.
Proof.
  destruct api_response as [ | | | | | | d]; try discriminate.
  unfold holds_no_list, get.
  destruct (dict_get "subsidiaries" d) as [v|]; intros Hl Hg;
    inversion Hg; subst; [| discriminate].
  destruct subsidiaries as [ | | | | | l | d']; try discriminate.
  destruct l as [|x l]; [discriminate |].
  destruct (rows_as_dicts_no_list _ Hl) as [ds Hds].
  unfold json_normalize, DataFrame_of_rows. now rewrite Hds.
Qed.

(** X3. For an envelope whose list of subsidiaries holds no list,
    [json_to_csv] lets no exception out and returns both a CSV and a file
    name or neither.  With neither it has shown exactly one notice, an
    error or a warning; with both it has shown nothing, and neither is
    empty, so that the test [csv_data and filename] of [main] holds. *)
Theorem X3_json_to_csv_both_or_neither :
  forall (str_value : list cell -> json -> string) (api_response : json)
         (parent_identifier : string) (w : World) (log : list st_call),
    holds_no_list api_response = true ->
    (exists notice,
        json_to_csv str_value api_response parent_identifier w log
        = (Return (None, None), (log ++ [notice])%list) /\
        is_error notice || is_warning notice = true) \/
    (exists csv_data,
        json_to_csv str_value api_response parent_identifier w log
        = (Return (Some csv_data,
                   Some (export_filename parent_identifier w)), log) /\
        str_truthy csv_data = true /\
        str_truthy (export_filename parent_identifier w) = true /\
        both_truthy (Some csv_data)
          (Some (export_filename parent_identifier w)) = true).
Proof.
  intros str_value api pid w log Hl.
  pose proof (json_to_csv_paths str_value api pid w log) as Hp.
  inversion Hp as [ m Hs Hr | s Hs Hg Hts Hr | s e Hs Hg Hts Hn Hr
                  | s df Hs Hg Hts Hn Hr | s Hs Hg Hts Hn Hr ].
  - left. eexists. split; reflexivity.
  - left. eexists. split; reflexivity.
  - left. eexists. split; reflexivity.
  - right. eexists. split; [reflexivity |].
    unfold both_truthy.
    rewrite to_csv_truthy, export_filename_truthy. auto.
  - exfalso. exact (json_normalize_no_list _ Hl Hg Hn).
Qed.

Lemma X3_witness :
  (exists notice,
      json_to_csv str_value_unused scenario_1 "Acme"
        (world "Acme" (Failed Timeout)) []
      = (Return (None, None), ([] ++ [notice])%list) /\
      is_error notice || is_warning notice = true) \/
  (exists csv_data,
      json_to_csv str_value_unused scenario_1 "Acme"
        (world "Acme" (Failed Timeout)) []
      = (Return (Some csv_data,
                 Some (export_filename "Acme"
                         (world "Acme" (Failed Timeout)))), []) /\
      str_truthy csv_data = true /\
      str_truthy (export_filename "Acme" (world "Acme" (Failed Timeout)))
      = true /\
      both_truthy (Some csv_data)
        (Some (export_filename "Acme" (world "Acme" (Failed Timeout))))
      = true).
Proof.
  exact (@X3_json_to_csv_both_or_neither str_value_unused scenario_1 "Acme"
           (world "Acme" (Failed Timeout)) [] eq_refl).
Defined.

(** X4. With status ["success"], an envelope that has no [subsidiaries] key,
    or holds there [null], [false], a zero, an empty string, list or dict,
    gets the warning that nothing was found, and no CSV. *)
Theorem X4_missing_or_falsy_subsidiaries :
  forall (str_value : list cell -> json -> string) (w : World)
         (d : dict json) (parent_identifier : string) (log : list st_call),
    dict_get "status" d = Some (JStr "success") ->
    match dict_get "subsidiaries" d with
    | Some v => truthy v = false
    | None => True
    end ->
    json_to_csv str_value (JObj d) parent_identifier w log
    = (Return (None, None),
       (log ++ [StWarning
                  (Literal "No subsidiaries found for the given criteria")])%list).
Proof.
  intros str_value w d pid log Hst Hsub.
  destruct (dict_get "subsidiaries" d) as [v|] eqn:Hv.
  - apply json_to_csv_warning with v; [now apply status_success | | exact Hsub].
    unfold get. now rewrite Hv.
  - apply json_to_csv_warning with (JArr []);
      [now apply status_success | | reflexivity].
    unfold get. now rewrite Hv.
Qed.

Lemma X4_witness :
  json_to_csv str_value_unused (JObj [("status", JStr "success")]) "Acme"
    (world "Acme" (Failed Timeout)) []
  = (Return (None, None),
     ([] ++ [StWarning
               (Literal "No subsidiaries found for the given criteria")])%list).
Proof.
  exact (@X4_missing_or_falsy_subsidiaries str_value_unused
           (world "Acme" (Failed Timeout)) [("status", JStr "success")]
           "Acme" [] eq_refl I).
Defined.

(** X5. With status ["success"], a [subsidiaries] value that is neither a
    list nor a dict and is not falsy (a non-empty string, a number other
    than zero, [true]) makes [json_normalize] raise; the exception is caught,
    shown as a conversion error, and no CSV is returned. *)
Theorem X5_subsidiaries_not_a_container :
  forall (str_value : list cell -> json -> string) (w : World)
         (d : dict json) (v : json) (parent_identifier : string)
         (log : list st_call),
    dict_get "status" d = Some (JStr "success") ->
    dict_get "subsidiaries" d = Some v ->
    truthy v = true ->
    isinstance_dict v = false ->
    isinstance_list v = false ->
    json_to_csv str_value (JObj d) parent_identifier w log
    = (Return (None, None),
       (log ++ [StError (Error_converting_data NotImplementedError)])%list).
Proof.
  intros str_value w d v pid log Hst Hsub Ht Hd Hl.
  apply json_to_csv_raised with v;
    [now apply status_success | | exact Ht |].
  - unfold get. now rewrite Hsub.
  - destruct v; try discriminate; reflexivity.
Qed.

Lemma X5_witness :
  json_to_csv str_value_unused
    (JObj [("status", JStr "success"); ("subsidiaries", JStr "none")])
    "Acme" (world "Acme" (Failed Timeout)) []
  = (Return (None, None),
     ([] ++ [StError (Error_converting_data NotImplementedError)])%list).
Proof.
  exact (@X5_subsidiaries_not_a_container str_value_unused
           (world "Acme" (Failed Timeout))
           [("status", JStr "success"); ("subsidiaries", JStr "none")]
           (JStr "none") "Acme" [] eq_refl eq_refl eq_refl eq_refl eq_refl).
Defined.

(** X6. With status ["success"], a [subsidiaries] value that is one record,
    a dict that is not empty, instead of a list of records gives the CSV of
    the list of that one record: the header and one row. *)
Theorem X6_single_record_is_a_list_of_one :
  forall (str_value : list cell -> json -> string) (w : World)
         (d r : dict json) (parent_identifier : string) (log : list st_call),
    dict_get "status" d = Some (JStr "success") ->
    dict_get "subsidiaries" d = Some (JObj r) ->
    r <> [] ->
    json_to_csv str_value (JObj d) parent_identifier w log
    = (Return (Some (writerows
                       [ labels (export_frame [JObj r]);
                         record_row str_value (export_frame [JObj r])
                           (JObj r) ]),
               Some (export_filename parent_identifier w)), log).
Proof.
  intros str_value w d r pid log Hst Hsub Hne.
  rewrite (@json_to_csv_csv str_value (JObj d) pid w log (JObj r)
             (DataFrame_of_dicts (map flat_record [JObj r]))).
  - fold (export_frame [JObj r]). unfold to_csv.
    now rewrite to_csv_rows_export.
  - now apply status_success.
  - unfold get. now rewrite Hsub.
  - destruct r; [contradiction | reflexivity].
  - reflexivity.
Qed.

Lemma X6_witness :
  json_to_csv str_value_unused
    (JObj [("status", JStr "success");
           ("subsidiaries", JObj [("name", JStr "Acme UK")])])
    "Acme" (world "Acme" (Failed Timeout)) []
  = (Return (Some (writerows
                     [ labels (export_frame [JObj [("name", JStr "Acme UK")]]);
                       record_row str_value_unused
                         (export_frame [JObj [("name", JStr "Acme UK")]])
                         (JObj [("name", JStr "Acme UK")]) ]),
             Some (export_filename "Acme" (world "Acme" (Failed Timeout)))),
     []).
Proof.
  apply (@X6_single_record_is_a_list_of_one str_value_unused
           (world "Acme" (Failed Timeout))
           [("status", JStr "success");
            ("subsidiaries", JObj [("name", JStr "Acme UK")])]
           [("name", JStr "Acme UK")] "Acme" []);
    [reflexivity | reflexivity | discriminate].
Defined.

(** X7. The drop of [json_to_csv] changes nothing but the set of columns:
    the frame has as many rows as before, a column outside the exclusion
    list stays, with its values and in its place among the others, no
    column is added, and a frame without excluded columns comes back as it
    is. *)
Theorem X7_drop_keeps_everything_else :
  forall df : DataFrame,
    exists kept,
      json_to_csv_drop df = Return kept /\
      index kept = index df /\
      columns kept
      = filter (fun c => negb (excluded (fst c))) (columns df) /\
      (forall c, In c (columns kept)
                 <-> In c (columns df) /\ ~ In (fst c) columns_to_exclude) /\
      ((forall c, In c (labels df) -> ~ In c columns_to_exclude) ->
       kept = df).
Proof.
  intros df. exists (without_excluded df).
  split; [apply json_to_csv_drop_eq |]. split; [reflexivity |].
  split; [reflexivity |]. split.
  - intros c. unfold without_excluded. cbn [columns].
    rewrite filter_In, negb_true_iff, <- excluded_In.
    split; intros [Hin Hex]; (split; [exact Hin |]).
    + now rewrite Hex.
    + now destruct (excluded (fst c)).
  - intros Hnone. unfold without_excluded.
    rewrite filter_all; [now destruct df |].
    intros c Hc. apply negb_true_iff.
    destruct (excluded (fst c)) eqn:E; [| reflexivity].
    exfalso. apply (Hnone (fst c)).
    + unfold labels. now apply in_map.
    + now apply excluded_In.
Qed.

Lemma str_has_append (c : ascii) (a b : string) :
  str_has c (a ++ b) = str_has c a || str_has c b.
Proof.
  induction a as [|x a IH]; [reflexivity |].
  cbn [append str_has]. now rewrite IH, orb_assoc.
Qed.

Lemma excluded_without_dot (c : string) :
  excluded c = true -> str_has dot c = false.
Proof.
  intros H. apply excluded_In in H. unfold columns_to_exclude in H.
  cbn [In] in H.
  repeat (destruct H as [<- | H]; [reflexivity |]). contradiction.
Qed.

Lemma dotted_path_has_dot (k p : string) (path : list string) :
  str_has dot (dotted_path (k :: p :: path)) = true.
Proof.
  unfold dotted_path. rewrite concat_cons_cons, !str_has_append.
  unfold separator. cbn [str_has]. change (Ascii.eqb dot ".") with true.
  cbn [orb]. now rewrite orb_true_r.
Qed.

Lemma In_dict_set {V} (k x : string) (v y : V) (d : dict V) :
  In (x, y) (dict_set k v d) -> (x = k /\ y = v) \/ In (x, y) d.
Proof.
  induction d as [|[k' v'] d IH]; cbn [dict_set In].
  - intros [H | []]. inversion H. now left.
  - destruct (String.eqb k k') eqn:E; cbn [In].
    + apply String.eqb_eq in E. subst k'.
      intros [H | H]; [inversion H; now left | right; now right].
    + intros [H | H]; [right; now left |].
      destruct (IH H) as [Hk | Hd]; [now left | right; now right].
Qed.

Lemma In_dict_merge {V} (b : dict V) : forall (a : dict V) (x : string) (y : V),
  In (x, y) (dict_merge a b) -> In (x, y) a \/ In (x, y) b.
Proof.
  unfold dict_merge.
  induction b as [|[k v] b IH]; intros a x y; cbn [fold_left fst snd].
  - now left.
  - intros H. destruct (IH _ _ _ H) as [Ha | Hb]; [| right; now right].
    apply In_dict_set in Ha.
    destruct Ha as [[-> ->] | Ha']; [right; now left | now left].
Qed.

(** What [_normalise_json] stores is a value that is not a dict, found at
    the end of a path, under the key of that path. *)
Lemma stored_value (v : json) : forall ks nd c y,
  In (c, y) (_normalise_json v ks nd) ->
  In (c, y) nd \/
  exists path, leaf_at path v y /\ isinstance_dict y = false /\
               c = path_key ks path.
Proof.
  induction v using json_nested_ind; intros ks nd c y Hc;
    try (cbn [_normalise_json] in Hc; apply In_dict_set in Hc;
         destruct Hc as [[-> ->] | Hc]; [right | now left];
         exists []; repeat split; constructor).
  rewrite _normalise_json_items in Hc. revert nd Hc.
  induction H as [|[k v] d Hv Hd IH]; intros nd Hc; [now left |].
  rewrite normalise_items_cons in Hc.
  destruct (IH _ Hc) as [Hc' | (path & Hl & Hx & ->)].
  - destruct (Hv _ _ _ _ Hc') as [Hnd | (path & Hl & Hx & ->)];
      [now left | right].
    exists (k :: path). repeat split; [| assumption].
    apply leaf_under with v; [now left | assumption].
  - right. exists path. repeat split; [| assumption].
    inversion Hl; subst.
    + discriminate.
    + apply leaf_under with v0; [now right | assumption].
Qed.

(** Every value of a flat record is a value of the record that is not a
    dict, under the column name of the path to it. *)
Lemma flat_record_value_is_leaf (d : dict json) (c : string) (y : json) :
  dict_get c (_normalise_json_ordered d) = Some y ->
  exists k v path,
    In (k, v) d /\ leaf_at path v y /\ isinstance_dict y = false /\
    c = path_key "" (k :: path).
Proof.
  unfold _normalise_json_ordered. intros Hc.
  apply dict_get_In, In_dict_merge in Hc. destruct Hc as [Hc | Hc].
  - apply filter_In in Hc. destruct Hc as [Hin Hv].
    cbn [snd] in Hv. apply negb_true_iff in Hv.
    exists c, y, []. repeat split; [assumption | constructor | assumption].
  - apply stored_value in Hc.
    destruct Hc as [[] | (path & Hl & Hx & ->)].
    inversion Hl as [| k path' d' v x' Hin Hl']; subst; [discriminate |].
    apply filter_In in Hin. destruct Hin as [Hin _].
    exists k, v, path'. now repeat split.
Qed.

(** X8. The exclusion goes by the whole column name.  A nested object under
    an excluded key is flattened before the drop: the dotted path from that
    key to a string in it is no name of the exclusion list, it is one of
    the columns of the CSV, each of which has a name of its own, and the row
    of the record holds the string in that column, as long as no other
    value of the record comes under the same column name. *)
Theorem X8_nested_values_under_an_excluded_key_are_exported :
  forall (str_value : list cell -> json -> string) (w : World)
         (envelope : json) (subs : list json)
         (parent_identifier : string) (log : list st_call)
         (j : nat) (d inner : dict json) (k : string) (path : list string)
         (t : string),
    envelope_subsidiaries envelope = Some subs ->
    nth_error subs j = Some (JObj d) ->
    In (k, JObj inner) d ->
    In k columns_to_exclude ->
    leaf_at path (JObj inner) (JStr t) ->
    (forall k' v' path' x',
        In (k', v') d -> leaf_at path' v' x' -> isinstance_dict x' = false ->
        path_key "" (k' :: path') = dotted_path (k :: path) ->
        x' = JStr t) ->
    exists header rows i row,
      json_to_csv str_value envelope parent_identifier w log
      = (Return (Some (writerows (header :: rows)),
                 Some (export_filename parent_identifier w)), log) /\
      ~ In (dotted_path (k :: path)) columns_to_exclude /\
      NoDup header /\
      nth_error header i = Some (dotted_path (k :: path)) /\
      nth_error rows j = Some row /\
      nth_error row i = Some t.
Proof.
  intros str_value w envelope subs pid log j d inner k path t
    Hv Hj Hk Hex Hleaf Hone.
  set (c := dotted_path (k :: path)) in *.
  assert (Hdot : str_has dot c = true).
  { inversion Hleaf as [| k' path' d' v' x' Hin Hl]; subst.
    apply dotted_path_has_dot. }
  assert (Hnot : excluded c = false).
  { destruct (excluded c) eqn:E; [| reflexivity].
    apply excluded_without_dot in E. congruence. }
  assert (Hkey : In c (keys (flat_record (JObj d)))).
  { cbn [flat_record]. subst c.
    apply flat_record_has_leaf with (JObj inner) (JStr t);
      [assumption | assumption | reflexivity |].
    intros _ ->. apply excluded_In in Hex. discriminate. }
  assert (Hhead : In c (labels (export_frame subs))).
  { unfold export_frame. rewrite labels_without_excluded.
    apply filter_In. split; [| now rewrite Hnot].
    apply labels_of_records. exists (JObj d). split; [| exact Hkey].
    now apply nth_error_In with j. }
  assert (Hget : dict_get c (flat_record (JObj d)) = Some (JStr t)).
  { destruct (dict_get c (flat_record (JObj d))) as [y|] eqn:Hy.
    - cbn [flat_record] in Hy.
      destruct (@flat_record_value_is_leaf _ _ _ Hy)
        as (k' & v' & path' & Hin' & Hl' & Hx' & Hc').
      f_equal. now apply (Hone k' v' path' y).
    - exfalso. now apply dict_get_None in Hy. }
  destruct (In_nth_error _ _ Hhead) as [i Hi].
  assert (Hcol : exists col, nth_error (columns (export_frame subs)) i
                             = Some col /\ fst col = c).
  { unfold labels in Hi. rewrite nth_error_map in Hi.
    destruct (nth_error (columns (export_frame subs)) i) as [col|];
      [| discriminate].
    exists col. split; [reflexivity |]. now inversion Hi. }
  destruct Hcol as (col & Hcol & Hfst).
  exists (labels (export_frame subs)),
    (map (record_row str_value (export_frame subs)) subs), i,
    (record_row str_value (export_frame subs) (JObj d)).
  split; [| split; [| split; [| split; [| split]]]].
  - rewrite (@json_to_csv_valid str_value envelope subs pid w log Hv).
    unfold to_csv. now rewrite to_csv_rows_export.
  - intros Hin. apply excluded_In in Hin. congruence.
  - unfold export_frame. rewrite labels_without_excluded.
    apply NoDup_filter. rewrite labels_DataFrame_of_dicts.
    apply fast_unique_NoDup.
  - exact Hi.
  - rewrite nth_error_map, Hj. reflexivity.
  - unfold record_row. rewrite nth_error_map, Hcol. cbn [option_map].
    now rewrite Hfst, Hget.
Qed.

Lemma X8_witness :
  exists header rows i row,
    json_to_csv str_value_unused created_by "Acme"
      (world "Acme" (Failed Timeout)) []
    = (Return (Some (writerows (header :: rows)),
               Some (export_filename "Acme" (world "Acme" (Failed Timeout)))),
       []) /\
    ~ In (dotted_path ["createdBy"; "email"]) columns_to_exclude /\
    NoDup header /\
    nth_error header i = Some (dotted_path ["createdBy"; "email"]) /\
    nth_error rows 0 = Some row /\
    nth_error row i = Some "a@b.c".
Proof.
  apply (@X8_nested_values_under_an_excluded_key_are_exported
           str_value_unused (world "Acme" (Failed Timeout)) created_by
           [JObj [ ("name", JStr "Acme UK");
                   ("createdBy", JObj [("email", JStr "a@b.c")]) ]]
           "Acme" [] 0
           [ ("name", JStr "Acme UK");
             ("createdBy", JObj [("email", JStr "a@b.c")]) ]
           [("email", JStr "a@b.c")] "createdBy" ["email"] "a@b.c").
  - reflexivity.
  - reflexivity.
  - right. left. reflexivity.
  - do 5 right. left. reflexivity.
  - apply leaf_under with (JStr "a@b.c"); [left; reflexivity | constructor].
  - intros k' v' path' x' [Hin | [Hin | []]] Hl Hx Hkey;
      inversion Hin; subst k' v'; clear Hin.
    + inversion Hl; subst. discriminate.
    + inversion Hl as [| k2 path2 d2 v2 x2 Hin2 Hl2]; subst;
        [discriminate |].
      destruct Hin2 as [Hin2 | []]. inversion Hin2; subst k2 v2.
      inversion Hl2; subst. reflexivity.
Defined.

(** Two values under one column name: the later one takes the place of the
    other, which is exported nowhere. *)
Example same_column_name :
  json_to_csv str_value_unused
    (JObj [ ("status", JStr "success");
            ("subsidiaries",
             JArr [JObj [("createdBy",
                          JObj [ ("a", JObj [("b", JStr "first")]);
                                 ("a.b", JStr "second") ])]]) ])
    "Acme" (world "Acme" (Failed Timeout)) []
  = (Return (Some (writerows [["createdBy.a.b"]; ["second"]]),
             Some "Acme_subsidiaries_20250101_120000.csv"), []).
Proof. reflexivity. Qed.

Lemma repeat_map {A B} (b : B) (l : list A) :
  map (fun _ => b) l = repeat b (List.length l).
Proof. induction l as [|x l IH]; [reflexivity |]. cbn. now rewrite IH. Qed.

(** X9. When every key of every record is in the exclusion list, and none
    holds a nested object, a CSV is returned all the same, with no notice:
    the writer gets an empty header and one empty row per record, and
    writes a line terminator for each. *)
Theorem X9_all_columns_excluded :
  forall (str_value : list cell -> json -> string) (w : World)
         (envelope : json) (subs : list json)
         (parent_identifier : string) (log : list st_call),
    envelope_subsidiaries envelope = Some subs ->
    (forall d k v, In (JObj d) subs -> In (k, v) d ->
                   In k columns_to_exclude /\ isinstance_dict v = false) ->
    json_to_csv str_value envelope parent_identifier w log
    = (Return (Some (writerows ([] :: repeat [] (List.length subs))),
               Some (export_filename parent_identifier w)), log) /\
    writerows ([] :: repeat [] (List.length subs))
    = String.concat "" (repeat lineterminator (S (List.length subs))).
Proof.
  intros str_value w envelope subs pid log Hv Hall.
  assert (Hlabels : labels (export_frame subs) = []).
  { unfold export_frame. rewrite labels_without_excluded.
    apply filter_none. intros c Hc. apply negb_false_iff, excluded_In.
    apply labels_of_records in Hc as (s & Hs & Hc).
    destruct (envelope_subsidiaries_spec _ Hv) as (_ & _ & _ & _ & _ & Hrec).
    rewrite forallb_forall in Hrec. specialize (Hrec s Hs).
    destruct s as [ | | | | | | d]; try discriminate.
    cbn [flat_record] in Hc. rewrite flat_without_dicts in Hc.
    - unfold keys in Hc. apply in_map_iff in Hc as ([k v] & <- & Hkv).
      now destruct (Hall d k v Hs Hkv).
    - intros [k v] Hkv. now destruct (Hall d k v Hs Hkv). }
  assert (Hcols : columns (export_frame subs) = []).
  { unfold labels in Hlabels. now apply map_eq_nil in Hlabels. }
  split.
  - rewrite (@json_to_csv_valid str_value envelope subs pid w log Hv).
    unfold to_csv. rewrite to_csv_rows_export, Hlabels.
    unfold record_row. rewrite Hcols. cbn [map].
    now rewrite repeat_map.
  - generalize (List.length subs) as n. intros n.
    cbn [writerows repeat]. change (writerow []) with lineterminator.
    induction n as [|n IH]; [reflexivity |].
    cbn [repeat writerows]. change (writerow []) with lineterminator.
    rewrite IH. cbn [repeat]. destruct n; reflexivity.
Qed.

Lemma X9_witness :
  json_to_csv str_value_unused only_ids "Acme"
    (world "Acme" (Failed Timeout)) []
  = (Return (Some (writerows ([] :: repeat [] 2)),
             Some (export_filename "Acme" (world "Acme" (Failed Timeout)))),
     []) /\
  writerows ([] :: repeat [] 2)
  = String.concat "" (repeat lineterminator 3).
Proof.
  apply (@X9_all_columns_excluded str_value_unused
           (world "Acme" (Failed Timeout)) only_ids
           [JObj [("id", JStr "1")]; JObj [("id", JStr "2")]] "Acme" []).
  - reflexivity.
  - intros d k v [Hd | [Hd | []]] Hkv; inversion Hd; subst;
      destruct Hkv as [Hkv | []]; inversion Hkv; subst;
      (split; [left; reflexivity | reflexivity]).
Defined.

Lemma export_column_length (subs : list json) (c : string * list cell) :
  In c (columns (export_frame subs)) ->
  List.length (snd c) = List.length subs.
Proof.
  intros Hc. apply In_columns_without_excluded in Hc as [Hc _].
  rewrite (frame_column _ _ Hc). now rewrite !length_map.
Qed.

(** X10. The preview of a run that produced a CSV is the exported frame cut
    to its first five rows: it has the same columns in the same order, the
    first five values of each, and five rows or as many as there are
    subsidiaries if these are fewer; with five subsidiaries or fewer it is
    the exported frame itself. *)
Theorem X10_preview_is_the_first_five_rows :
  forall (str_value : list cell -> json -> string) (w : World)
         (envelope : json) (subs : list json),
    fetched w envelope ->
    envelope_subsidiaries envelope = Some subs ->
    exists before preview,
      snd (main str_value w []) = (before ++ [StDataframe preview])%list /\
      existsb is_dataframe before = false /\
      index preview = Nat.min 5 (List.length subs) /\
      columns preview
      = map (fun c => (fst c, firstn 5 (snd c)))
            (columns (export_frame subs)) /\
      (forall c, In c (columns preview) ->
                 List.length (snd c) = index preview) /\
      (List.length subs <= 5 -> preview = export_frame subs).
Proof.
  intros str_value w envelope subs Hf Hv.
  rewrite (main_valid str_value Hf Hv). cbn [snd].
  exists (page_calls
            ++ [ StSuccess (Found_subsidiaries (count_field envelope));
                 StDownloadButton "Download CSV File"
                   (to_csv str_value (export_frame subs))
                   (export_filename (text_input w) w) "text/csv";
                 StSuccess (Literal "Data fetched successfully! Click the button above to download the CSV file.");
                 StSubheader "Data Preview" ])%list,
    (head (export_frame subs)).
  assert (Hindex : index (export_frame subs) = List.length subs)
    by (unfold export_frame, without_excluded, DataFrame_of_dicts;
        cbn [index]; now rewrite length_map).
  split; [| split; [| split; [| split; [| split]]]].
  - unfold success_calls. rewrite <- app_assoc. reflexivity.
  - reflexivity.
  - unfold head. cbn [index]. now rewrite Hindex.
  - reflexivity.
  - intros c Hc. unfold head in *. cbn [columns index] in *.
    apply in_map_iff in Hc as (c' & <- & Hc'). cbn [snd].
    rewrite length_firstn, (export_column_length _ _ Hc'), Hindex.
    reflexivity.
  - intros Hle. unfold head. rewrite Hindex, Nat.min_r by exact Hle.
    rewrite <- Hindex.
    replace (map (fun c => (fst c, firstn 5 (snd c)))
                 (columns (export_frame subs)))
      with (columns (export_frame subs)); [now destruct (export_frame subs) |].
    rewrite <- (map_id (columns (export_frame subs))) at 1.
    apply map_ext_in. intros [l vs] Hc. cbn [fst snd].
    rewrite firstn_all2; [reflexivity |].
    pose proof (export_column_length _ _ Hc) as Hlen. cbn [snd] in Hlen.
    lia.
Qed.

Lemma X10_witness :
  exists before preview,
    snd (main str_value_unused
           (world "Acme" (Response 200 (Json scenario_1))) [])
    = (before ++ [StDataframe preview])%list /\
    existsb is_dataframe before = false /\
    index preview = Nat.min 5 2 /\
    columns preview
    = map (fun c => (fst c, firstn 5 (snd c)))
          (columns (export_frame
                      [ JObj [("id", JStr "1"); ("name", JStr "Acme UK")];
                        JObj [("id", JStr "2"); ("name", JStr "Acme FR")] ])) /\
    (forall c, In c (columns preview) ->
               List.length (snd c) = index preview) /\
    (2 <= 5 ->
     preview = export_frame
                 [ JObj [("id", JStr "1"); ("name", JStr "Acme UK")];
                   JObj [("id", JStr "2"); ("name", JStr "Acme FR")] ]).
Proof.
  apply (@X10_preview_is_the_first_five_rows str_value_unused
           (world "Acme" (Response 200 (Json scenario_1))) scenario_1
           [ JObj [("id", JStr "1"); ("name", JStr "Acme UK")];
             JObj [("id", JStr "2"); ("name", JStr "Acme FR")] ]).
  - apply fetched_world; reflexivity.
  - reflexivity.
Defined.

(** X11. In every run of [main] that fetches no envelope with a list among
    its subsidiaries, the download button and the preview come together,
    each at most once and after a banner with the count; and a run that
    shows an error or a warning offers no download. *)
Theorem X11_download_and_preview_come_together :
  forall (str_value : list cell -> json -> string) (w : World),
    (forall envelope, fetched w envelope -> holds_no_list envelope = true) ->
    let log := snd (main str_value w []) in
    List.length (filter is_download log)
    = List.length (filter is_dataframe log) /\
    List.length (filter is_download log) <= 1 /\
    (existsb is_error log || existsb is_warning log = true ->
     existsb is_download log = false) /\
    (existsb is_download log = true ->
     exists count, In (StSuccess (Found_subsidiaries count)) log) /\
    fst (main str_value w []) <> Unmodelled.
Proof.
  intros str_value w Hl log. subst log.
  pose proof (main_paths str_value w) as Hp.
  inversion Hp as [ Hb | Hb Hnm | e Hff | data Hf Htd | data m Hf Htd Hs
                  | data s Hf Hs Hg Hts | data s e Hf Hs Hg Hts Hn
                  | data s df count Hf Hs Hg Hts Hn Hc
                  | data s Hf Hs Hg Hts Hn
                  | e_raised Hfr ]; cbn [fst snd];
    try (exfalso; exact (json_normalize_no_list _ (Hl _ Hf) Hg Hn));
    (split; [reflexivity |]); (split; [cbn; lia |]);
    (split; [cbn; try discriminate; auto |]);
    (split; [cbn; try discriminate | discriminate]).
  intros _. exists count. unfold page_calls, input_calls, success_calls.
  cbn [app In]. do 6 right. left. reflexivity.
Qed.

Lemma fetched_world_only name status_code envelope envelope' :
  fetched (world name (Response status_code (Json envelope))) envelope' ->
  envelope' = envelope.
Proof.
  intros (_ & _ & sc & Ha & _). unfold answer, world in Ha.
  cbn [requests_get] in Ha. now inversion Ha.
Qed.

Lemma X11_witness :
  let log :=
    snd (main str_value_unused
           (world "Acme" (Response 200 (Json scenario_1))) []) in
  List.length (filter is_download log)
  = List.length (filter is_dataframe log) /\
  List.length (filter is_download log) <= 1 /\
  (existsb is_error log || existsb is_warning log = true ->
   existsb is_download log = false) /\
  (existsb is_download log = true ->
   exists count, In (StSuccess (Found_subsidiaries count)) log) /\
  fst (main str_value_unused
         (world "Acme" (Response 200 (Json scenario_1))) []) <> Unmodelled.
Proof.
  apply (@X11_download_and_preview_come_together str_value_unused
           (world "Acme" (Response 200 (Json scenario_1)))).
  intros envelope Hf. apply fetched_world_only in Hf. subst envelope.
  reflexivity.
Defined.

(** X12. When the body fetched is a JSON value that Python takes as false
    ([null], [false], a zero, an empty string, list or dict), [main] stops
    after the spinner: it calls [json_to_csv] not at all and shows no
    notice. *)
Theorem X12_falsy_body_is_passed_over :
  forall (str_value : list cell -> json -> string) (w : World) (data : json),
    fetched w data ->
    truthy data = false ->
    main str_value w [] = (Return tt, page_calls).
Proof.
  intros str_value w data Hf Ht.
  pose proof (main_paths str_value w) as Hp.
  inversion Hp as [ Hb | Hb Hnm | e Hff | data' Hf' Htd | data' m Hf' Htd Hs
                  | data' s Hf' Hs Hg Hts | data' s e Hf' Hs Hg Hts Hn
                  | data' s df count Hf' Hs Hg Hts Hn Hc
                  | data' s Hf' Hs Hg Hts Hn
                  | e_raised Hfr ];
    try (exfalso;
         solve [ eapply fetch_raised_not_fetched; eassumption
               | eapply fetch_raised_not_failed; eassumption ]);
    try (destruct Hf as (Hb' & Hnm' & _); congruence);
    try (exfalso; eapply fetched_not_failed; eassumption);
    try reflexivity;
    pose proof (fetched_same Hf' Hf) as ->; try congruence;
    destruct (status_success_dict _ Hs) as (d & _ & Htd'); congruence.
Qed.

Lemma X12_witness :
  main str_value_unused (world "Acme" (Response 200 (Json JNull))) []
  = (Return tt, page_calls).
Proof.
  apply (@X12_falsy_body_is_passed_over str_value_unused
           (world "Acme" (Response 200 (Json JNull))) JNull).
  - apply fetched_world; reflexivity.
  - reflexivity.
Defined.

Lemma add_unique_fresh (ks : list string) : forall u : list string,
  NoDup ks -> (forall k, In k ks -> ~ In k u) ->
  fold_left add_unique ks u = (u ++ ks)%list.
Proof.
  induction ks as [|k ks IH]; intros u Hnd Hfresh; cbn [fold_left].
  - now rewrite app_nil_r.
  - inversion Hnd as [|? ? Hk Hnd']; subst. unfold add_unique at 2.
    destruct (existsb (String.eqb k) u) eqn:E.
    + apply existsb_eqb_In in E. exfalso. apply (Hfresh k); [now left | exact E].
    + rewrite IH; [now rewrite <- app_assoc | exact Hnd' |].
      intros k' Hk' Hin. apply in_app_or in Hin as [Hin | [<- | []]].
      * apply (Hfresh k'); [now right | exact Hin].
      * contradiction.
Qed.

Lemma add_unique_extends (ks : list string) : forall u : list string,
  exists t, fold_left add_unique ks u = (u ++ t)%list.
Proof.
  induction ks as [|k ks IH]; intros u; cbn [fold_left].
  - exists []. now rewrite app_nil_r.
  - unfold add_unique at 2. destruct (existsb (String.eqb k) u).
    + apply IH.
    + destruct (IH (u ++ [k])%list) as [t Ht]. exists (k :: t).
      rewrite Ht. now rewrite <- app_assoc.
Qed.

Lemma fast_unique_extends (gen : list (list string)) : forall u : list string,
  exists t,
    fold_left (fun u ks => fold_left add_unique ks u) gen u = (u ++ t)%list.
Proof.
  induction gen as [|ks gen IH]; intros u; cbn [fold_left].
  - exists []. now rewrite app_nil_r.
  - destruct (add_unique_extends ks u) as [t Ht]. rewrite Ht.
    destruct (IH (u ++ t)%list) as [t' Ht']. exists (t ++ t')%list.
    rewrite Ht'. now rewrite <- app_assoc.
Qed.

Lemma fast_unique_first (ks : list string) (gen : list (list string)) :
  NoDup ks ->
  exists t, fast_unique_multiple_list_gen (ks :: gen) = (ks ++ t)%list.
Proof.
  intros Hnd. unfold fast_unique_multiple_list_gen.
  change (fun uniques k =>
            if existsb (String.eqb k) uniques then uniques
            else (uniques ++ [k])%list) with add_unique.
  cbn [fold_left]. rewrite add_unique_fresh; [| exact Hnd | intros k _ []].
  apply fast_unique_extends.
Qed.

(** X13. The columns of the CSV keep the order of the keys: for a first
    record without nested objects, its keys outside the exclusion list head
    the header row in the order the record has them, and what the later
    records add comes after. *)
Theorem X13_header_follows_the_first_record :
  forall (str_value : list cell -> json -> string) (w : World)
         (envelope : json) (d : dict json) (rest : list json)
         (parent_identifier : string) (log : list st_call),
    envelope_subsidiaries envelope = Some (JObj d :: rest) ->
    NoDup (keys d) ->
    (forall k v, In (k, v) d -> isinstance_dict v = false) ->
    exists later rows,
      json_to_csv str_value envelope parent_identifier w log
      = (Return (Some (writerows
                         ((filter (fun k => negb (excluded k)) (keys d)
                             ++ later)%list :: rows)),
                 Some (export_filename parent_identifier w)), log) /\
      (forall k, In k later -> ~ In k (keys d)).
Proof.
  intros str_value w envelope d rest pid log Hv Hnd Hflat.
  assert (Hd : flat_record (JObj d) = d).
  { cbn [flat_record]. apply flat_without_dicts.
    intros [k v] Hkv. now apply Hflat with k. }
  destruct (@fast_unique_first (keys d)
              (map (@keys json) (map flat_record rest)) Hnd) as [t Ht].
  exists (filter (fun k => negb (excluded k)) t),
    (map (record_row str_value (export_frame (JObj d :: rest)))
         (JObj d :: rest)).
  assert (Hlabels : labels (export_frame (JObj d :: rest))
                    = (filter (fun k => negb (excluded k)) (keys d)
                         ++ filter (fun k => negb (excluded k)) t)%list).
  { unfold export_frame. rewrite labels_without_excluded.
    rewrite labels_DataFrame_of_dicts. cbn [map]. rewrite Hd, Ht.
    apply filter_app. }
  split.
  - rewrite (@json_to_csv_valid str_value envelope (JObj d :: rest) pid w log
               Hv).
    unfold to_csv. now rewrite to_csv_rows_export, Hlabels.
  - intros k Hk Hin. apply filter_In in Hk as [Hk _].
    pose proof (fast_unique_NoDup
                  (keys d :: map (@keys json) (map flat_record rest))) as Hno.
    rewrite Ht in Hno. revert Hno Hk Hin. generalize (keys d) as ks.
    induction ks as [|x ks IH]; intros Hno Hk Hin; [contradiction |].
    cbn [app] in Hno. inversion Hno as [|? ? Hx Hno']; subst.
    destruct Hin as [-> | Hin].
    + apply Hx. apply in_or_app. now right.
    + now apply IH.
Qed.

Lemma X13_witness :
  exists later rows,
    json_to_csv str_value_unused scenario_1 "Acme"
      (world "Acme" (Failed Timeout)) []
    = (Return (Some (writerows
                       ((filter (fun k => negb (excluded k))
                                (keys [("id", JStr "1");
                                       ("name", JStr "Acme UK")])
                           ++ later)%list :: rows)),
               Some (export_filename "Acme" (world "Acme" (Failed Timeout)))),
       []) /\
    (forall k, In k later ->
               ~ In k (keys [("id", JStr "1"); ("name", JStr "Acme UK")])).
Proof.
  apply (@X13_header_follows_the_first_record str_value_unused
           (world "Acme" (Failed Timeout)) scenario_1
           [("id", JStr "1"); ("name", JStr "Acme UK")]
           [JObj [("id", JStr "2"); ("name", JStr "Acme FR")]] "Acme" []).
  - reflexivity.
  - repeat constructor; cbn; intuition discriminate.
  - intros k v [H | [H | []]]; inversion H; reflexivity.
Defined.

(** X14. [json_to_csv] reads two fields of the envelope and no other: two
    envelopes, neither empty, with the same [status] and the same
    [subsidiaries] give the same result, whatever [count] or anything else
    in them says. *)
Theorem X14_only_status_and_subsidiaries_matter :
  forall (str_value : list cell -> json -> string) (w : World)
         (d d' : dict json) (parent_identifier : string)
         (log : list st_call),
    d <> [] -> d' <> [] ->
    dict_get "status" d = dict_get "status" d' ->
    dict_get "subsidiaries" d = dict_get "subsidiaries" d' ->
    json_to_csv str_value (JObj d) parent_identifier w log
    = json_to_csv str_value (JObj d') parent_identifier w log.
Proof.
  intros str_value w d d' pid log Hd Hd' Hst Hsub.
  unfold json_to_csv.
  replace (truthy (JObj d)) with true by (destruct d; [contradiction | reflexivity]).
  replace (truthy (JObj d')) with true by (destruct d'; [contradiction | reflexivity]).
  run_script. unfold dict_mem. rewrite Hst, Hsub. reflexivity.
Qed.

Lemma X14_witness :
  json_to_csv str_value_unused scenario_1 "Acme"
    (world "Acme" (Failed Timeout)) []
  = json_to_csv str_value_unused (JObj miscounted) "Acme"
      (world "Acme" (Failed Timeout)) [].
Proof.
  apply (@X14_only_status_and_subsidiaries_matter str_value_unused
           (world "Acme" (Failed Timeout))
           [ ("status", JStr "success"); ("count", JInt 2);
             ("subsidiaries",
              JArr [ JObj [("id", JStr "1"); ("name", JStr "Acme UK")];
                     JObj [("id", JStr "2"); ("name", JStr "Acme FR")] ]) ]
           miscounted "Acme" []); try discriminate; reflexivity.
Defined.

Lemma str_contains_truthy (s : string) :
  str_contains "status" s = true -> str_truthy s = true.
Proof. destruct s; [discriminate | reflexivity]. Qed.



(** X16. Which error [json_to_csv] shows for an envelope without the status
    ["success"]: the notice of an invalid or empty response, unless the
    envelope is a number other than zero, [true], or a list or string that
    holds ["status"]; then the test on the status raises a [TypeError],
    which is caught and shown as a conversion error. *)
Theorem X16_which_error_is_shown :
  forall (str_value : list cell -> json -> string) (api_response : json)
         (parent_identifier : string) (w : World) (log : list st_call),
    status_not_success api_response = true ->
    json_to_csv str_value api_response parent_identifier w log
    = (Return (None, None),
       (log ++ [StError (invalid_notice api_response)])%list).
Proof.
  intros str_value api pid w log Hs. unfold json_to_csv, invalid_notice.
  destruct api as [ | b | z | m e | s | l | d ];
    cbn [raises_TypeError]; unfold truthy; run_script.
  - reflexivity.
  - destruct b; reflexivity.
  - destruct (Z.eqb z 0); reflexivity.
  - destruct (Z.eqb m 0); reflexivity.
  - destruct (str_contains "status" s) eqn:E.
    + rewrite (str_contains_truthy _ E). reflexivity.
    + destruct (str_truthy s); reflexivity.
  - destruct l as [|x l]; [reflexivity |].
    destruct (existsb (fun x => eq_str x "status") (x :: l)); reflexivity.
  - destruct d as [|kv d]; [reflexivity |]. unfold dict_mem.
    cbn [status_not_success] in Hs.
    destruct (dict_get "status" (kv :: d)) as [st|]; [| reflexivity].
    apply negb_true_iff in Hs. rewrite Hs. reflexivity.
Qed.

Lemma X16_witness :
  json_to_csv str_value_unused (JArr [JStr "status"]) "Acme"
    (world "Acme" (Failed Timeout)) []
  = (Return (None, None),
     ([] ++ [StError (invalid_notice (JArr [JStr "status"]))])%list).
Proof.
  exact (@X16_which_error_is_shown str_value_unused (JArr [JStr "status"])
           "Acme" (world "Acme" (Failed Timeout)) [] eq_refl).
Defined.
